(** * Checkout flow of Task.cpp: products, cart, customer, checkout.

    A shallow embedding of [src/src/Task.cpp].  The program is sequential C++
    that mutates objects through references and [shared_ptr]s, throws
    [runtime_error] and writes to [cout]; it is modelled in a state-and-
    exception monad over one record holding the objects [main] creates.

    - [int] is a [Z] with the 32-bit two's-complement wrap written out at the
      one place the program does integer arithmetic ([reduceQuantity]).
    - [double] is an abstract type with the operations the program uses
      ([DoubleOps]); the theorems hold for any such arithmetic.  The
      instance the program runs on is IEEE binary64 (Rocq's primitive
      floats).
    - [shared_ptr<Product>] is an address into a store of products, so two
      cart lines can alias one product.  Every address holds a product: a
      null pointer, whose use is undefined in C++, has no counterpart.
    - [time(nullptr)] reads the field [now] of the state; the clock does not
      advance within one call.
    - [cout] is a stream with its sticky floating-point format ([fixed],
      [setprecision]) and the sequence of chunks written; a [double] is
      recorded together with the format in force when it was written. *)

From Stdlib Require Import ZArith List String Ascii Bool Lia.
From Stdlib Require Import Floats.
From Stdlib Require DecimalString.
Import ListNotations.

Local Open Scope Z_scope.

(** ** Machine integers *)

Module Int.

Definition MIN : Z := -2147483648.
Definition MAX : Z := 2147483647.

Definition in_range (z : Z) : Prop := MIN <= z <= MAX.

(** 32-bit two's-complement wrap-around.  (Signed overflow is undefined in
    C++; the wrap is what the usual targets do.) *)
Definition wrap (z : Z) : Z := (z + 2147483648) mod 4294967296 - 2147483648.

(** [std::to_string(int)] and [ostream << int]. *)
Definition to_string (z : Z) : string :=
  DecimalString.NilZero.string_of_int (Z.to_int z).

End Int.

Arguments Int.to_string : simpl never.

(** ** Arithmetic on [double] *)

(** The operations of [double] the program uses. *)
Class DoubleOps (double : Type) := {
  d_of_int : Z -> double;                  (* implicit conversion int -> double *)
  d_add : double -> double -> double;      (* a + b *)
  d_sub : double -> double -> double;      (* a - b *)
  d_mul : double -> double -> double;      (* a * b *)
  d_lt : double -> double -> bool;         (* a < b *)
  d_to_int : double -> Z                   (* int(a): truncation toward zero *)
}.


(** *** IEEE binary64 *)

Module IEEE.

Definition of_int (z : Z) : float :=
  match z with
  | Z0 => PrimFloat.zero
  | Zpos _ => PrimFloat.of_uint63 (Uint63.of_Z z)
  | Zneg p => PrimFloat.opp (PrimFloat.of_uint63 (Uint63.of_Z (Zpos p)))
  end.

(** [int(x)]: the integer part.  Out of the range of [int] (and for NaN and
    the infinities) the conversion is undefined in C++; x86 yields
    [INT_MIN]. *)
Definition to_int (x : float) : Z :=
  match Prim2SF x with
  | S754_zero _ => 0
  | S754_finite sgn m e =>
      let mag := if 0 <=? e then Zpos m * 2 ^ e else Zpos m / 2 ^ (- e) in
      let v := if sgn then - mag else mag in
      if (Int.MIN <=? v) && (v <=? Int.MAX) then v else Int.MIN
  | _ => Int.MIN
  end.

#[export] Instance ops : DoubleOps float := {
  d_of_int := of_int;
  d_add := PrimFloat.add;
  d_sub := PrimFloat.sub;
  d_mul := PrimFloat.mul;
  d_lt := PrimFloat.ltb;
  d_to_int := to_int
}.

End IEEE.


(** ** The program *)

Definition time_t := Z.

(** [shared_ptr<Product>]: the address of a live product. *)
Definition ProductPtr := nat.

Definition nl : string := String (ascii_of_nat 10) EmptyString.

(** [std::runtime_error], with its [what()]. *)
Inductive exception := runtime_error (what : string).

(** How a call ends: it returns, or an exception leaves it. *)
Inductive result (A : Type) :=
| Normal (a : A)
| Throw (e : exception).
Arguments Normal {A} a.
Arguments Throw {A} e.

(** [ios_base::floatfield]: neither [fixed] nor [scientific] set, or [fixed]. *)
Inductive floatfield := defaultfloat | fixed.

Section Shop.

Context {double : Type} {DO : DoubleOps double}.

(** *** [cout] *)

(** What was written: text, or a [double] with the format in force. *)
Inductive chunk :=
| Text (s : string)
| Real (ff : floatfield) (precision : Z) (x : double).

Record ostream := mk_ostream {
  os_floatfield : floatfield;
  os_precision : Z;
  os_written : list chunk
}.

(** A stream nothing has touched yet: general format, precision 6. *)
Definition fresh_stream : ostream := mk_ostream defaultfloat 6 [].

Definition os_put (c : chunk) (os : ostream) : ostream :=
  mk_ostream (os_floatfield os) (os_precision os) (os_written os ++ [c]).

(** *** Classes *)

(** The [Shippable] interface of an object: what its two methods answer. *)
Record Shippable := mk_Shippable {
  Shippable_getName : string;
  Shippable_getWeight : double
}.

(** The dynamic class of a product, with the members the class adds. *)
Inductive ProductClass :=
| BaseProduct
| ExpirableProduct (expiryDate : time_t)
| ShippableProduct (weight : double)
| ExpirableShippableProduct (expiryDate : time_t) (weight : double).

Record Product := mk_Product {
  name : string;
  price : double;
  quantity : Z;
  dynamic_class : ProductClass
}.

Definition getName (p : Product) : string := name p.
Definition getPrice (p : Product) : double := price p.
Definition getQuantity (p : Product) : Z := quantity p.

(** [void reduceQuantity(int amount) { quantity -= amount; }] *)
Definition reduceQuantity (amount : Z) (p : Product) : Product :=
  mk_Product (name p) (price p) (Int.wrap (quantity p - amount)) (dynamic_class p).

(** [virtual bool isShippable() const] *)
Definition isShippable (p : Product) : bool :=
  match dynamic_class p with
  | ShippableProduct _ | ExpirableShippableProduct _ _ => true
  | BaseProduct | ExpirableProduct _ => false
  end.

(** [dynamic_cast<Shippable*>(product.get())] *)
Definition dynamic_cast_Shippable (p : Product) : option Shippable :=
  match dynamic_class p with
  | ShippableProduct w | ExpirableShippableProduct _ w => Some (mk_Shippable (name p) w)
  | BaseProduct | ExpirableProduct _ => None
  end.

Record Customer := mk_Customer {
  customer_name : string;
  balance : double
}.

Record CartItem := mk_CartItem {
  item_product : ProductPtr;
  item_quantity : Z
}.

Record Cart := mk_Cart { items : list CartItem }.

(** *** State *)

(** The objects of [main]: the products behind the shared pointers, the
    customer and the cart [checkout] gets by reference, the clock, [cout]. *)
Record State := mk_State {
  products : ProductPtr -> Product;
  customer : Customer;
  cart : Cart;
  now : time_t;
  cout : ostream
}.

Definition set_products (f : ProductPtr -> Product) (s : State) : State :=
  mk_State f (customer s) (cart s) (now s) (cout s).
Definition set_customer (c : Customer) (s : State) : State :=
  mk_State (products s) c (cart s) (now s) (cout s).
Definition set_cart (c : Cart) (s : State) : State :=
  mk_State (products s) (customer s) c (now s) (cout s).
Definition set_cout (os : ostream) (s : State) : State :=
  mk_State (products s) (customer s) (cart s) (now s) os.

(** The store with the object at [l] replaced. *)
Definition store (l : ProductPtr) (p : Product) (f : ProductPtr -> Product)
  : ProductPtr -> Product :=
  fun l' => if Nat.eqb l' l then p else f l'.

(** *** State and exceptions *)

Definition M (A : Type) : Type := State -> result A * State.

Definition ret {A} (a : A) : M A := fun s => (Normal a, s).

Definition bind {A B} (m : M A) (k : A -> M B) : M B :=
  fun s => match m s with
           | (Normal a, s') => k a s'
           | (Throw e, s') => (Throw e, s')
           end.

Definition throw {A} (e : exception) : M A := fun s => (Throw e, s).

Definition gets {A} (f : State -> A) : M A := fun s => (Normal (f s), s).

Definition modify (f : State -> State) : M unit := fun s => (Normal tt, f s).

Notation "x <- m ;; k" := (bind m (fun x => k))
  (at level 61, m at next level, right associativity).
Notation "m ;;; k" := (bind m (fun _ => k))
  (at level 61, right associativity).

(** A range-[for] whose body updates local variables [a]. *)
Fixpoint for_each {X A} (body : A -> X -> M A) (l : list X) (a : A) : M A :=
  match l with
  | [] => ret a
  | x :: l' => a' <- body a x ;; for_each body l' a'
  end.

(** [time(nullptr)] *)
Definition time : M time_t := gets now.

(** [product->...]: the object a shared pointer refers to. *)
Definition deref (l : ProductPtr) : M Product := gets (fun s => products s l).

(** [virtual bool isExpired() const]: [Product] answers false;
    [ExpirableProduct] answers [time(nullptr) > expiryDate]. *)
Definition isExpired (p : Product) : M bool :=
  match dynamic_class p with
  | ExpirableProduct expiryDate | ExpirableShippableProduct expiryDate _ =>
      t <- time ;; ret (expiryDate <? t)
  | BaseProduct | ShippableProduct _ => ret false
  end.

(** [cout << s] *)
Definition cout_text (s : string) : M unit :=
  modify (fun st => set_cout (os_put (Text s) (cout st)) st).

(** [cout << n] for an [int] *)
Definition cout_int (n : Z) : M unit := cout_text (Int.to_string n).

(** [cout << x] for a [double]: written in the format the stream is in. *)
Definition cout_double (x : double) : M unit :=
  modify (fun st =>
    set_cout (os_put (Real (os_floatfield (cout st)) (os_precision (cout st)) x) (cout st)) st).

(** [cout << fixed] *)
Definition cout_fixed : M unit :=
  modify (fun st =>
    set_cout (mk_ostream fixed (os_precision (cout st)) (os_written (cout st))) st).

(** [cout << setprecision(n)] *)
Definition cout_setprecision (n : Z) : M unit :=
  modify (fun st =>
    set_cout (mk_ostream (os_floatfield (cout st)) n (os_written (cout st))) st).

(** *** [Customer] *)

Definition Customer_getBalance : M double := gets (fun s => balance (customer s)).

(** [void pay(double amount) { balance -= amount; }] *)
Definition Customer_pay (amount : double) : M unit :=
  modify (fun s =>
    set_customer (mk_Customer (customer_name (customer s))
                              (d_sub (balance (customer s)) amount)) s).

Definition Customer_showBalance : M unit :=
  cout_text "Customer Balance: " ;;;
  cout_fixed ;;;
  cout_setprecision 2 ;;;
  b <- Customer_getBalance ;;
  cout_double b ;;;
  cout_text nl.

(** *** [Cart] *)

Definition Cart_add (product : ProductPtr) (quantity : Z) : M unit :=
  p <- deref product ;;
  if quantity >? getQuantity p
  then throw (runtime_error ("Not enough stock for: " ++ getName p))
  else modify (fun s => set_cart (mk_Cart (items (cart s) ++ [mk_CartItem product quantity])) s).

Definition Cart_getItems : M (list CartItem) := gets (fun s => items (cart s)).

Definition Cart_isEmpty : M bool :=
  gets (fun s => match items (cart s) with [] => true | _ :: _ => false end).

Definition Cart_clear : M unit := modify (set_cart (mk_Cart [])).

(** *** [ShippingService] *)

Definition ShippingService_shipItems (shippingItems : list (string * double)) : M unit :=
  cout_text ("** Shipment notice **" ++ nl) ;;;
  totalWeight <- for_each (fun totalWeight (it : string * double) =>
                   cout_text (fst it) ;;;
                   cout_text nl ;;;
                   ret (d_add totalWeight (snd it)))
                 shippingItems (d_of_int 0) ;;
  cout_text "Total package weight " ;;;
  cout_fixed ;;;
  cout_setprecision 1 ;;;
  cout_double totalWeight ;;;
  cout_text ("kg" ++ nl ++ nl).

(** *** [checkout] *)

(** The local variables of [checkout] the first loop updates. *)
Record Locals := mk_Locals {
  subtotal : double;
  shippingCost : double;
  shippingItems : list (string * double)
}.

(** The body of the first loop (lines 137-154). *)
Definition checkout_validate (acc : Locals) (item : CartItem) : M Locals :=
  product <- deref (item_product item) ;;
  expired <- isExpired product ;;
  if expired then throw (runtime_error (getName product ++ " is expired.")) else
  if item_quantity item >? getQuantity product
  then throw (runtime_error ("Insufficient stock: " ++ getName product)) else
  let subtotal' :=
    d_add (subtotal acc) (d_mul (getPrice product) (d_of_int (item_quantity item))) in
  if isShippable product then
    match dynamic_cast_Shippable product with
    | Some s =>
        let weight := d_mul (Shippable_getWeight s) (d_of_int (item_quantity item)) in
        let desc :=
          (Int.to_string (item_quantity item) ++ "x " ++ Shippable_getName s ++ "    "
             ++ Int.to_string (d_to_int (d_mul weight (d_of_int 1000))) ++ "g")%string in
        ret (mk_Locals subtotal'
                       (d_add (shippingCost acc) (d_mul weight (d_of_int 10)))
                       (shippingItems acc ++ [(desc, weight)]))
    | None => ret (mk_Locals subtotal' (shippingCost acc) (shippingItems acc))
    end
  else ret (mk_Locals subtotal' (shippingCost acc) (shippingItems acc)).

(** The body of the second loop (lines 167-169). *)
Definition checkout_settle (_ : unit) (item : CartItem) : M unit :=
  cout_int (item_quantity item) ;;;
  cout_text "x " ;;;
  p <- deref (item_product item) ;;
  cout_text (getName p) ;;;
  cout_text "    " ;;;
  cout_double (d_mul (getPrice p) (d_of_int (item_quantity item))) ;;;
  cout_text nl ;;;
  modify (fun s =>
    set_products (store (item_product item)
                        (reduceQuantity (item_quantity item) (products s (item_product item)))
                        (products s)) s).

Definition checkout : M unit :=
  empty <- Cart_isEmpty ;;
  if empty then throw (runtime_error "Cart is empty.") else
  cart_items <- Cart_getItems ;;
  acc <- for_each checkout_validate cart_items (mk_Locals (d_of_int 0) (d_of_int 0) []) ;;
  let total := d_add (subtotal acc) (shippingCost acc) in
  b <- Customer_getBalance ;;
  if d_lt b total then throw (runtime_error "Customer balance is insufficient.") else
  (match shippingItems acc with
   | [] => ret tt
   | _ :: _ => ShippingService_shipItems (shippingItems acc)
   end) ;;;
  cout_text ("** Checkout receipt **" ++ nl) ;;;
  cart_items' <- Cart_getItems ;;
  for_each checkout_settle cart_items' tt ;;;
  cout_text ("----------------------" ++ nl) ;;;
  cout_text "Subtotal         " ;;; cout_double (subtotal acc) ;;; cout_text nl ;;;
  cout_text "Shipping         " ;;; cout_double (shippingCost acc) ;;; cout_text nl ;;;
  cout_text "Amount           " ;;; cout_double total ;;; cout_text (nl ++ nl) ;;;
  Customer_pay total ;;;
  Customer_showBalance ;;;
  Cart_clear.

(** ** What the claims speak of *)

(** What [isExpired] answers for [p] when the clock reads [t]. *)
Definition expired_at (t : time_t) (p : Product) : bool :=
  match dynamic_class p with
  | ExpirableProduct expiryDate | ExpirableShippableProduct expiryDate _ => expiryDate <? t
  | BaseProduct | ShippableProduct _ => false
  end.

(** A line passes the two per-line checks: its product is not expired and
    its own quantity does not exceed the product's stock. *)
Definition line_passes (s : State) (it : CartItem) : Prop :=
  expired_at (now s) (products s (item_product it)) = false /\
  item_quantity it <= getQuantity (products s (item_product it)).

(** [unitPrice * requestedQuantity] of a line. *)
Definition line_price (h : ProductPtr -> Product) (it : CartItem) : double :=
  d_mul (getPrice (h (item_product it))) (d_of_int (item_quantity it)).

(** [weight * requestedQuantity] of the shippable lines, in cart order. *)
Definition shipped_weights (h : ProductPtr -> Product) (l : list CartItem) : list double :=
  flat_map (fun it =>
    match dynamic_cast_Shippable (h (item_product it)) with
    | Some sh => [d_mul (Shippable_getWeight sh) (d_of_int (item_quantity it))]
    | None => []
    end) l.


(** The subtotal, the shipping cost and the total as [checkout] accumulates
    them: line by line, from 0. *)
Definition cart_subtotal (s : State) : double :=
  fold_left d_add (map (line_price (products s)) (items (cart s))) (d_of_int 0).

Definition cart_shipping (s : State) : double :=
  fold_left (fun a w => d_add a (d_mul w (d_of_int 10)))
            (shipped_weights (products s) (items (cart s))) (d_of_int 0).

Definition cart_total (s : State) : double := d_add (cart_subtotal s) (cart_shipping s).

(** The quantity the lines of [l] that refer to the product at [p] request
    together. *)
Definition requested (p : ProductPtr) (l : list CartItem) : Z :=
  fold_right Z.add 0
    (map item_quantity (filter (fun it => Nat.eqb (item_product it) p) l)).

(** The products after [reduceQuantity] has run for every line of [l]. *)
Definition settle_products (l : list CartItem) (h : ProductPtr -> Product)
  : ProductPtr -> Product :=
  fold_left (fun h it =>
    store (item_product it) (reduceQuantity (item_quantity it) (h (item_product it))) h) l h.

(** The shipment line of a shippable line of the cart. *)
Definition shipment_line (h : ProductPtr -> Product) (it : CartItem)
  : list (string * double) :=
  match dynamic_cast_Shippable (h (item_product it)) with
  | Some sh =>
      let weight := d_mul (Shippable_getWeight sh) (d_of_int (item_quantity it)) in
      [((Int.to_string (item_quantity it) ++ "x " ++ Shippable_getName sh ++ "    "
           ++ Int.to_string (d_to_int (d_mul weight (d_of_int 1000))) ++ "g")%string, weight)]
  | None => []
  end.

(** The local variables after a line that passed. *)
Definition add_line (h : ProductPtr -> Product) (acc : Locals) (it : CartItem) : Locals :=
  mk_Locals (d_add (subtotal acc) (line_price h it))
            (fold_left (fun a w => d_add a (d_mul w (d_of_int 10)))
                       (shipped_weights h [it]) (shippingCost acc))
            (shippingItems acc ++ shipment_line h it).

(** *** What is written *)

(** The shipment notice for the shipment lines [l]. *)
Definition notice_chunks (l : list (string * double)) : list chunk :=
  Text ("** Shipment notice **" ++ nl)
  :: flat_map (fun it : string * double => [Text (fst it); Text nl]) l
  ++ [Text "Total package weight ";
      Real fixed 1 (fold_left d_add (map snd l) (d_of_int 0));
      Text ("kg" ++ nl ++ nl)].

(** The line of the receipt of a cart line, in the format [ff], [pr]. *)
Definition receipt_line (ff : floatfield) (pr : Z) (h : ProductPtr -> Product)
    (it : CartItem) : list chunk :=
  [Text (Int.to_string (item_quantity it)); Text "x ";
   Text (getName (h (item_product it))); Text "    ";
   Real ff pr (line_price h it); Text nl].

(** The three closing lines of the receipt: each number with the format it
    was written in. *)
Definition totals_chunks (ff : floatfield) (pr : Z) (sub ship total : double)
  : list chunk :=
  [Text ("----------------------" ++ nl);
   Text "Subtotal         "; Real ff pr sub; Text nl;
   Text "Shipping         "; Real ff pr ship; Text nl;
   Text "Amount           "; Real ff pr total; Text (nl ++ nl)].

(** What [showBalance] writes. *)
Definition balance_chunks (b : double) : list chunk :=
  [Text "Customer Balance: "; Real fixed 2 b; Text nl].


(** The format the receipt's numbers are written in: [checkout] sets none,
    so it is the one the stream is in, which [shipItems] has changed when a
    shipment notice was written. *)
Definition receipt_floatfield (s : State) : floatfield :=
  match shipped_weights (products s) (items (cart s)) with
  | [] => os_floatfield (cout s)
  | _ :: _ => fixed
  end.

Definition receipt_precision (s : State) : Z :=
  match shipped_weights (products s) (items (cart s)) with
  | [] => os_precision (cout s)
  | _ :: _ => 1
  end.

(** All that a successful [checkout] writes. *)
Definition checkout_output (s : State) : list chunk :=
  let h := products s in
  let l := items (cart s) in
  let ff := receipt_floatfield s in
  let pr := receipt_precision s in
  match flat_map (shipment_line h) l with
  | [] => []
  | x :: ship => notice_chunks (x :: ship)
  end
  ++ Text ("** Checkout receipt **" ++ nl)
  :: flat_map (receipt_line ff pr h) l
  ++ totals_chunks ff pr (cart_subtotal s) (cart_shipping s) (cart_total s)
  ++ balance_chunks (d_sub (balance (customer s)) (cart_total s)).

(** The state a successful [checkout] leaves. *)
Definition settled (s : State) : State :=
  mk_State (settle_products (items (cart s)) (products s))
           (mk_Customer (customer_name (customer s))
                        (d_sub (balance (customer s)) (cart_total s)))
           (mk_Cart [])
           (now s)
           (mk_ostream fixed 2 (os_written (cout s) ++ checkout_output s)).

(** The formats of the numbers written right after the labels of the
    receipt's three closing lines, in the order written. *)
Definition is_total_label (t : string) : bool :=
  String.eqb t "Subtotal         " || String.eqb t "Shipping         "
  || String.eqb t "Amount           ".

Fixpoint totals_formats (out : list chunk) : list (floatfield * Z) :=
  match out with
  | [] => []
  | Text t :: rest =>
      match rest with
      | Real ff pr _ :: _ =>
          if is_total_label t then (ff, pr) :: totals_formats rest else totals_formats rest
      | _ => totals_formats rest
      end
  | Real _ _ _ :: rest => totals_formats rest
  end.

End Shop.

(** ** The objects of [main], and some carts *)

Module Main.

Import IEEE.

(** The clock when [main] starts. *)
Definition t0 : time_t := 1700000000.
Definition tomorrow : time_t := t0 + 86400.

Definition cheese : Product :=
  mk_Product "Cheese" (of_int 100) 10
             (ExpirableShippableProduct tomorrow 0x1.999999999999ap-3%float).   (* 0.2 *)
Definition biscuits : Product :=
  mk_Product "Biscuits" (of_int 150) 5
             (ExpirableShippableProduct tomorrow 0x1.6666666666666p-1%float).   (* 0.7 *)
Definition tv : Product :=
  mk_Product "TV" (of_int 5000) 3 (ShippableProduct (of_int 10)).
Definition scratchCard : Product :=
  mk_Product "Scratch Card" (of_int 50) 100 BaseProduct.

(** Where the four [make_shared] put them. *)
Definition cheese_ptr : ProductPtr := 0%nat.
Definition biscuits_ptr : ProductPtr := 1%nat.
Definition tv_ptr : ProductPtr := 2%nat.
Definition scratchCard_ptr : ProductPtr := 3%nat.

Definition catalog (l : ProductPtr) : Product :=
  match l with
  | 0%nat => cheese
  | 1%nat => biscuits
  | 2%nat => tv
  | _ => scratchCard
  end.

(** The state before the first [cart.add], the clock reading [t]. *)
Definition start_at (t : time_t) : State :=
  mk_State catalog (mk_Customer "Ibrahim" (of_int 1000)) (mk_Cart []) t fresh_stream.

Definition start : State := start_at t0.

(** The state with the cart holding [l]. *)
Definition with_cart (l : list CartItem) (s : @State float) : @State float :=
  mk_State (products s) (customer s) (mk_Cart l) (now s) (cout s).

(** After [main]'s three calls of [cart.add]. *)
Definition carted : State :=
  with_cart [mk_CartItem cheese_ptr 1; mk_CartItem biscuits_ptr 1;
             mk_CartItem scratchCard_ptr 1] start.

(** Two lines of three packets of biscuits, of which there are five. *)
Definition biscuits_twice : State :=
  with_cart [mk_CartItem biscuits_ptr 3; mk_CartItem biscuits_ptr 3] start.

(** A scratch card, then twenty pieces of cheese, then a hundred TVs, read
    two days later: the cheese has expired and is short, the TVs are short. *)
Definition stale : State :=
  with_cart [mk_CartItem scratchCard_ptr 1; mk_CartItem cheese_ptr 20;
             mk_CartItem tv_ptr 100] (start_at (t0 + 2 * 86400)).

(** A scratch card, then four TVs, of which there are three, then cheese. *)
Definition short : State :=
  with_cart [mk_CartItem scratchCard_ptr 1; mk_CartItem tv_ptr 4;
             mk_CartItem cheese_ptr 1] start.

(** One TV, at 5000 and 100 of shipping, for a balance of 1000. *)
Definition dear : State := with_cart [mk_CartItem tv_ptr 1] start.

(** Two scratch cards: nothing to ship. *)
Definition cards : State := with_cart [mk_CartItem scratchCard_ptr 2] start.

(** No scratch card and minus two pieces of cheese. *)
Definition odd : State :=
  with_cart [mk_CartItem scratchCard_ptr 0; mk_CartItem cheese_ptr (-2)] start.



(** Minus two pieces of cheese and two lines of one packet of biscuits. *)
Definition cheese_back : State :=
  with_cart [mk_CartItem cheese_ptr (-2); mk_CartItem biscuits_ptr 1;
             mk_CartItem biscuits_ptr 1] start.

End Main.


(** ** Callers *)

Section Callers.

Context {double : Type} {DO : DoubleOps double}.

(** Consecutive calls [cart.add(p1, q1); cart.add(p2, q2); ...], as in the
    [try] block of [main]: a call that throws ends the sequence. *)
Definition Cart_add_all (ops : list (ProductPtr * Z)) : @M double unit :=
  for_each (fun (_ : unit) (op : ProductPtr * Z) => Cart_add (fst op) (snd op)) ops tt.

(** [e.what()] *)
Definition what (e : exception) : string :=
  match e with runtime_error w => w end.

(** How [main] ends: the value it returns, the objects and [cout] as it
    leaves them, and what it has written to [cerr]. *)
Record Exit := mk_Exit {
  exit_code : Z;
  final : @State double;
  cerr : list string
}.

(** [try { body } catch (const exception& e) { cerr << "Checkout failed: "
    << e.what() << '\n'; } return 0;] *)
Definition try_and_return (body : @M double unit) (s : @State double) : Exit :=
  match body s with
  | (Normal _, s') => mk_Exit 0 s' []
  | (Throw e, s') => mk_Exit 0 s' ["Checkout failed: "%string; what e; nl]
  end.

End Callers.

Module Program.

Import IEEE.

(** The four objects [main] makes, the clock reading [t] when it starts. *)
Definition cheese (t : time_t) : Product :=
  mk_Product "Cheese" (of_int 100) 10
             (ExpirableShippableProduct (t + 86400) 0x1.999999999999ap-3%float).   (* 0.2 *)
Definition biscuits (t : time_t) : Product :=
  mk_Product "Biscuits" (of_int 150) 5
             (ExpirableShippableProduct (t + 86400) 0x1.6666666666666p-1%float).   (* 0.7 *)
Definition tv : Product :=
  mk_Product "TV" (of_int 5000) 3 (ShippableProduct (of_int 10)).
Definition scratchCard : Product :=
  mk_Product "Scratch Card" (of_int 50) 100 BaseProduct.

(** The store after the four [make_shared]: cheese, biscuits, TV and
    scratch card at the addresses 0 to 3.  (No pointer of [main] refers to
    another address; the store being total, the scratch card stands there.) *)
Definition objects (t : time_t) (l : ProductPtr) : Product :=
  match l with
  | 0%nat => cheese t
  | 1%nat => biscuits t
  | 2%nat => tv
  | _ => scratchCard
  end.

(** [main], started when the clock reads [t], [cout] being [os]. *)
Definition main (t : time_t) (os : ostream) : Exit :=
  let cheese := 0%nat in
  let biscuits := 1%nat in
  let scratchCard := 3%nat in
  try_and_return
    (bind (Cart_add cheese 1) (fun _ =>
     bind (Cart_add biscuits 1) (fun _ =>
     bind (Cart_add scratchCard 1) (fun _ =>
     checkout))))
    (mk_State (objects t) (mk_Customer "Ibrahim" (of_int 1000)) (mk_Cart []) t os).

End Program.

(** ** Facts about the wrap *)

Lemma wrap_in_range (z : Z) : Int.in_range z -> Int.wrap z = z.
Proof.
  unfold Int.in_range, Int.wrap, Int.MIN, Int.MAX. intros Hz.
  rewrite Z.mod_small; lia.
Qed.

Lemma wrap_sub_wrap (a b : Z) : Int.wrap (Int.wrap a - b) = Int.wrap (a - b).
Proof.
  unfold Int.wrap.
  replace ((a + 2147483648) mod 4294967296 - 2147483648 - b + 2147483648)
    with ((a + 2147483648) mod 4294967296 - b) by lia.
  rewrite Zminus_mod_idemp_l. f_equal. f_equal. lia.
Qed.

(** ** The first loop: validation and totals *)

Section Shop_facts.

Context {double : Type} {DO : DoubleOps double}.

Local Abbreviation State := (@State double).
Local Abbreviation Product := (@Product double).
Local Abbreviation Locals := (@Locals double).
Local Abbreviation M := (@M double).

Local Notation "x <- m ;; k" := (bind m (fun x => k))
  (at level 61, m at next level, right associativity).
Local Notation "m ;;; k" := (bind m (fun _ => k))
  (at level 61, right associativity).

Ltac project :=
  cbn [products customer cart now cout os_floatfield os_precision os_written
       customer_name balance items].

Ltac run_monad :=
  unfold cout_int, cout_text, cout_double, cout_fixed, cout_setprecision, deref;
  unfold bind, ret, gets, modify, throw;
  unfold os_put, set_cout, set_cart, set_customer, set_products; simpl.

Lemma isExpired_run (p : Product) (s : State) :
  isExpired p s = (Normal (expired_at (now s) p), s).
Proof.
  unfold isExpired, expired_at. destruct (dynamic_class p); reflexivity.
Qed.

Lemma dynamic_cast_isShippable (p : Product) :
  isShippable p = match dynamic_cast_Shippable p with Some _ => true | None => false end.
Proof.
  unfold isShippable, dynamic_cast_Shippable. destruct (dynamic_class p); reflexivity.
Qed.

Lemma validate_pass (s : State) (acc : Locals) (it : CartItem) :
  line_passes s it ->
  checkout_validate acc it s = (Normal (add_line (products s) acc it), s).
Proof.
  intros [Hexp Hq].
  unfold checkout_validate, bind, deref, gets. rewrite isExpired_run, Hexp.
  assert ((item_quantity it >? getQuantity (products s (item_product it))) = false) as ->
    by (rewrite Z.gtb_ltb; apply Z.ltb_ge; exact Hq).
  rewrite dynamic_cast_isShippable.
  unfold add_line, shipment_line, shipped_weights, line_price. simpl.
  destruct (dynamic_cast_Shippable (products s (item_product it)));
    simpl; rewrite ?app_nil_r; reflexivity.
Qed.

Lemma validate_expired (s : State) (acc : Locals) (it : CartItem) :
  expired_at (now s) (products s (item_product it)) = true ->
  checkout_validate acc it s =
  (Throw (runtime_error (getName (products s (item_product it)) ++ " is expired.")), s).
Proof.
  intros Hexp. unfold checkout_validate, bind, deref, gets.
  rewrite isExpired_run, Hexp. reflexivity.
Qed.

Lemma validate_short (s : State) (acc : Locals) (it : CartItem) :
  expired_at (now s) (products s (item_product it)) = false ->
  item_quantity it > getQuantity (products s (item_product it)) ->
  checkout_validate acc it s =
  (Throw (runtime_error ("Insufficient stock: " ++ getName (products s (item_product it)))), s).
Proof.
  intros Hexp Hq. unfold checkout_validate, bind, deref, gets.
  rewrite isExpired_run, Hexp.
  assert ((item_quantity it >? getQuantity (products s (item_product it))) = true) as ->
    by (rewrite Z.gtb_ltb; apply Z.ltb_lt; lia).
  reflexivity.
Qed.

(** A line either passes or fails one of the two checks. *)
Lemma line_passes_dec (s : State) (it : CartItem) :
  line_passes s it \/
  expired_at (now s) (products s (item_product it)) = true \/
  (expired_at (now s) (products s (item_product it)) = false /\
   item_quantity it > getQuantity (products s (item_product it))).
Proof.
  unfold line_passes.
  destruct (expired_at (now s) (products s (item_product it))); [right; left; reflexivity|].
  destruct (Z_le_gt_dec (item_quantity it) (getQuantity (products s (item_product it)))).
  - left. split; [reflexivity | assumption].
  - right. right. split; [reflexivity | assumption].
Qed.

(** When every line passes, the loop returns the totals. *)
Lemma validate_loop_pass (l : list CartItem) :
  forall acc (s : State), Forall (line_passes s) l ->
  for_each checkout_validate l acc s = (Normal (fold_left (add_line (products s)) l acc), s).
Proof.
  induction l as [|it l IH]; intros acc s Hall; simpl.
  - reflexivity.
  - inversion Hall as [|? ? Hp Hl]; subst.
    unfold bind. rewrite (validate_pass s acc it Hp). apply IH. exact Hl.
Qed.

(** The loop stops at the first line that fails: what follows it is not
    looked at. *)
Lemma validate_loop_stops (pre post : list CartItem) (it : CartItem) (e : exception) :
  forall acc (s : State), Forall (line_passes s) pre ->
  (forall acc', checkout_validate acc' it s = (Throw e, s)) ->
  for_each checkout_validate (pre ++ it :: post) acc s = (Throw e, s).
Proof.
  induction pre as [|x pre IH]; intros acc s Hall Hit; simpl.
  - unfold bind. rewrite Hit. reflexivity.
  - inversion Hall as [|? ? Hp Hl]; subst.
    unfold bind. rewrite (validate_pass s acc x Hp). apply IH; assumption.
Qed.

Lemma fold_add_line_subtotal (h : ProductPtr -> Product) (l : list CartItem) :
  forall acc, subtotal (fold_left (add_line h) l acc)
              = fold_left d_add (map (line_price h) l) (subtotal acc).
Proof.
  induction l as [|it l IH]; intros acc; simpl; [reflexivity|].
  rewrite IH. reflexivity.
Qed.

Lemma fold_add_line_shippingCost (h : ProductPtr -> Product) (l : list CartItem) :
  forall acc, shippingCost (fold_left (add_line h) l acc)
              = fold_left (fun a w => d_add a (d_mul w (d_of_int 10)))
                          (shipped_weights h l) (shippingCost acc).
Proof.
  induction l as [|it l IH]; intros acc; simpl; [reflexivity|].
  rewrite IH. unfold shipped_weights. simpl. rewrite app_nil_r, fold_left_app. reflexivity.
Qed.

Lemma fold_add_line_shippingItems (h : ProductPtr -> Product) (l : list CartItem) :
  forall acc, shippingItems (fold_left (add_line h) l acc)
              = shippingItems acc ++ flat_map (shipment_line h) l.
Proof.
  induction l as [|it l IH]; intros acc; simpl.
  - rewrite app_nil_r. reflexivity.
  - rewrite IH. simpl. rewrite app_assoc. reflexivity.
Qed.

Lemma shipment_lines_weights (h : ProductPtr -> Product) (l : list CartItem) :
  map snd (flat_map (shipment_line h) l) = shipped_weights h l.
Proof.
  unfold shipped_weights.
  induction l as [|it l IH]; simpl; [reflexivity|].
  rewrite map_app, IH. f_equal.
  unfold shipment_line. destruct (dynamic_cast_Shippable (h (item_product it))); reflexivity.
Qed.

(** ** Writing and settling *)

(** One step of writing, followed by the rest of the call. *)
Lemma cout_text_then {A} (t : string) (k : M A) (s : State) :
  (cout_text t ;;; k) s
  = k (mk_State (products s) (customer s) (cart s) (now s)
         (mk_ostream (os_floatfield (cout s)) (os_precision (cout s))
                     (os_written (cout s) ++ [Text t]))).
Proof. reflexivity. Qed.

Lemma cout_double_then {A} (x : double) (k : M A) (s : State) :
  (cout_double x ;;; k) s
  = k (mk_State (products s) (customer s) (cart s) (now s)
         (mk_ostream (os_floatfield (cout s)) (os_precision (cout s))
                     (os_written (cout s)
                        ++ [Real (os_floatfield (cout s)) (os_precision (cout s)) x]))).
Proof. reflexivity. Qed.

Lemma pay_then {A} (amount : double) (k : M A) (s : State) :
  (Customer_pay amount ;;; k) s
  = k (mk_State (products s)
         (mk_Customer (customer_name (customer s)) (d_sub (balance (customer s)) amount))
         (cart s) (now s) (cout s)).
Proof. reflexivity. Qed.

Lemma cout_fixed_then {A} (k : M A) (s : State) :
  (cout_fixed ;;; k) s
  = k (mk_State (products s) (customer s) (cart s) (now s)
         (mk_ostream fixed (os_precision (cout s)) (os_written (cout s)))).
Proof. reflexivity. Qed.

Lemma cout_setprecision_then {A} (n : Z) (k : M A) (s : State) :
  (cout_setprecision n ;;; k) s
  = k (mk_State (products s) (customer s) (cart s) (now s)
         (mk_ostream (os_floatfield (cout s)) n (os_written (cout s)))).
Proof. reflexivity. Qed.

Ltac step :=
  first [ rewrite cout_text_then | rewrite cout_double_then | rewrite cout_fixed_then
        | rewrite cout_setprecision_then | rewrite pay_then ];
  project.

Lemma shipItems_loop (l : list (string * double)) :
  forall w (s : State),
  for_each (fun totalWeight (it : string * double) =>
              cout_text (fst it) ;;; cout_text nl ;;; ret (d_add totalWeight (snd it)))
           l w s
  = (Normal (fold_left d_add (map snd l) w),
     mk_State (products s) (customer s) (cart s) (now s)
       (mk_ostream (os_floatfield (cout s)) (os_precision (cout s))
          (os_written (cout s)
             ++ flat_map (fun it : string * double => [Text (fst it); Text nl]) l))).
Proof.
  induction l as [|it l IH]; intros w s; simpl.
  - destruct s as [h c ca t [ff pr out]]. run_monad. rewrite app_nil_r. reflexivity.
  - run_monad. rewrite IH. simpl. rewrite <- !app_assoc. reflexivity.
Qed.

Lemma shipItems_run (l : list (string * double)) (s : State) :
  ShippingService_shipItems l s
  = (Normal tt,
     mk_State (products s) (customer s) (cart s) (now s)
       (mk_ostream fixed 1 (os_written (cout s) ++ notice_chunks l))).
Proof.
  unfold ShippingService_shipItems, notice_chunks.
  step.
  unfold bind at 1. rewrite shipItems_loop. project.
  do 4 step.
  unfold cout_text, modify, set_cout, os_put.
  project. rewrite <- !app_assoc. reflexivity.
Qed.

Lemma showBalance_run (s : State) :
  Customer_showBalance s
  = (Normal tt,
     mk_State (products s) (customer s) (cart s) (now s)
       (mk_ostream fixed 2 (os_written (cout s) ++ balance_chunks (balance (customer s))))).
Proof.
  unfold Customer_showBalance, Customer_getBalance, balance_chunks.
  do 3 step.
  unfold bind at 1. unfold gets at 1. project.
  step.
  unfold cout_text, modify, set_cout, os_put.
  project. rewrite <- !app_assoc. reflexivity.
Qed.

(** [reduceQuantity] touches the quantity alone: names, prices and classes
    stay as they are, whatever lines have been settled. *)
Lemma settle_products_catalog (l : list CartItem) :
  forall (h : ProductPtr -> Product) p,
  name (settle_products l h p) = name (h p) /\
  price (settle_products l h p) = price (h p) /\
  dynamic_class (settle_products l h p) = dynamic_class (h p).
Proof.
  unfold settle_products.
  induction l as [|it l IH]; intros h p; simpl; [auto|].
  destruct (IH (store (item_product it)
                      (reduceQuantity (item_quantity it) (h (item_product it))) h) p)
    as (Hn & Hp & Hc).
  rewrite Hn, Hp, Hc. unfold store.
  destruct (Nat.eqb p (item_product it)) eqn:E; [|auto].
  apply Nat.eqb_eq in E. subst p. auto.
Qed.

Lemma receipt_line_store (ff : floatfield) (pr : Z) (h : ProductPtr -> Product)
    (p : ProductPtr) (q : Z) (it : CartItem) :
  receipt_line ff pr (store p (reduceQuantity q (h p)) h) it = receipt_line ff pr h it.
Proof.
  unfold receipt_line, line_price, getName, getPrice, store.
  destruct (Nat.eqb (item_product it) p) eqn:E; [|reflexivity].
  apply Nat.eqb_eq in E. rewrite E. reflexivity.
Qed.

(** The second loop: one receipt line per cart line, in the format the
    stream is in, and [reduceQuantity] for every line. *)
Lemma settle_loop (l : list CartItem) :
  forall s : State,
  for_each checkout_settle l tt s
  = (Normal tt,
     mk_State (settle_products l (products s)) (customer s) (cart s) (now s)
       (mk_ostream (os_floatfield (cout s)) (os_precision (cout s))
          (os_written (cout s)
             ++ flat_map (receipt_line (os_floatfield (cout s)) (os_precision (cout s))
                                       (products s)) l))).
Proof.
  induction l as [|it l IH]; intros s; simpl.
  - destruct s as [h c ca t [ff pr out]]. run_monad. rewrite app_nil_r. reflexivity.
  - unfold bind at 1. unfold checkout_settle at 1.
    unfold cout_int. do 2 step.
    unfold bind at 1. unfold deref at 1. unfold gets at 1.
    do 4 step.
    unfold modify, set_products. project. rewrite IH. project.
    rewrite <- !app_assoc.
    rewrite (flat_map_ext _ _
               (receipt_line_store (os_floatfield (cout s)) (os_precision (cout s))
                  (products s) (item_product it) (item_quantity it))).
    reflexivity.
Qed.

(** ** The four ways [checkout] ends *)

Lemma checkout_empty (s : State) :
  items (cart s) = [] ->
  checkout s = (Throw (runtime_error "Cart is empty."), s).
Proof.
  intros E. unfold checkout, Cart_isEmpty. unfold bind at 1. unfold gets at 1.
  rewrite E. reflexivity.
Qed.

Lemma checkout_validation_throws (s : State) (e : exception) :
  items (cart s) <> [] ->
  for_each checkout_validate (items (cart s)) (mk_Locals (d_of_int 0) (d_of_int 0) []) s
    = (Throw e, s) ->
  checkout s = (Throw e, s).
Proof.
  intros Hne Hv. unfold checkout, Cart_isEmpty, Cart_getItems.
  unfold bind at 1. unfold gets at 1.
  destruct (items (cart s)) as [|it l] eqn:E; [congruence|].
  unfold bind at 1. unfold gets at 1. rewrite E.
  unfold bind at 1. rewrite Hv. reflexivity.
Qed.

Lemma validated_totals (s : State) :
  let acc := fold_left (add_line (products s)) (items (cart s))
                       (mk_Locals (d_of_int 0) (d_of_int 0) []) in
  subtotal acc = cart_subtotal s /\
  shippingCost acc = cart_shipping s /\
  shippingItems acc = flat_map (shipment_line (products s)) (items (cart s)).
Proof.
  simpl. rewrite fold_add_line_subtotal, fold_add_line_shippingCost,
    fold_add_line_shippingItems. auto.
Qed.

Lemma checkout_funds (s : State) :
  items (cart s) <> [] ->
  Forall (line_passes s) (items (cart s)) ->
  d_lt (balance (customer s)) (cart_total s) = true ->
  checkout s = (Throw (runtime_error "Customer balance is insufficient."), s).
Proof.
  intros Hne Hall Hlt. unfold checkout, Cart_isEmpty, Cart_getItems, Customer_getBalance.
  unfold bind at 1. unfold gets at 1.
  destruct (items (cart s)) as [|it l] eqn:E; [congruence|].
  unfold bind at 1. unfold gets at 1. rewrite E.
  unfold bind at 1. rewrite (validate_loop_pass _ _ _ Hall).
  unfold bind at 1. unfold gets at 1.
  destruct (validated_totals s) as (Hs & Hc & _). rewrite E in Hs, Hc.
  rewrite Hs, Hc. fold (cart_total s). rewrite Hlt. reflexivity.
Qed.

(** The rest of [checkout] once the checks are behind: receipt, stock,
    payment, balance line, empty cart.  It cannot throw. *)
Lemma checkout_tail_run (sub ship total : double) (s : State) :
  (cout_text ("** Checkout receipt **" ++ nl) ;;;
   cart_items' <- Cart_getItems ;;
   for_each checkout_settle cart_items' tt ;;;
   cout_text ("----------------------" ++ nl) ;;;
   cout_text "Subtotal         " ;;; cout_double sub ;;; cout_text nl ;;;
   cout_text "Shipping         " ;;; cout_double ship ;;; cout_text nl ;;;
   cout_text "Amount           " ;;; cout_double total ;;; cout_text (nl ++ nl) ;;;
   Customer_pay total ;;;
   Customer_showBalance ;;;
   Cart_clear) s
  = (Normal tt,
     mk_State (settle_products (items (cart s)) (products s))
       (mk_Customer (customer_name (customer s)) (d_sub (balance (customer s)) total))
       (mk_Cart [])
       (now s)
       (mk_ostream fixed 2
          (os_written (cout s)
             ++ Text ("** Checkout receipt **" ++ nl)
             :: flat_map (receipt_line (os_floatfield (cout s)) (os_precision (cout s))
                                       (products s)) (items (cart s))
             ++ totals_chunks (os_floatfield (cout s)) (os_precision (cout s)) sub ship total
             ++ balance_chunks (d_sub (balance (customer s)) total)))).
Proof.
  step.
  unfold bind at 1. unfold Cart_getItems at 1. unfold gets at 1. project.
  unfold bind at 1. rewrite settle_loop. project.
  do 11 step.
  unfold bind at 1. rewrite showBalance_run. project.
  unfold Cart_clear, modify, set_cart. project.
  unfold totals_chunks.
  rewrite <- !app_assoc. reflexivity.
Qed.

Lemma checkout_settles (s : State) :
  items (cart s) <> [] ->
  Forall (line_passes s) (items (cart s)) ->
  d_lt (balance (customer s)) (cart_total s) = false ->
  checkout s = (Normal tt, settled s).
Proof.
  intros Hne Hall Hlt. unfold checkout, Cart_isEmpty, Customer_getBalance.
  unfold bind at 1. unfold gets at 1.
  destruct (items (cart s)) as [|it l] eqn:E; [congruence|].
  unfold bind at 1. unfold Cart_getItems at 1. unfold gets at 1. rewrite E.
  unfold bind at 1. rewrite (validate_loop_pass _ _ _ Hall).
  unfold bind at 1. unfold gets at 1.
  destruct (validated_totals s) as (Hs & Hc & Hi). rewrite E in Hs, Hc, Hi.
  rewrite Hs, Hc, Hi. fold (cart_total s). rewrite Hlt.
  unfold settled, checkout_output, receipt_floatfield, receipt_precision.
  rewrite <- (shipment_lines_weights (products s) (items (cart s))).
  rewrite E.
  destruct (flat_map (shipment_line (products s)) (it :: l)) as [|x ship] eqn:Eship.
  - unfold bind at 1. unfold ret at 1.
    rewrite checkout_tail_run. rewrite E. reflexivity.
  - unfold bind at 1. rewrite shipItems_run.
    rewrite checkout_tail_run. project. rewrite E. rewrite <- !app_assoc. reflexivity.
Qed.

(** The first line that fails, if any. *)
Lemma first_failing_line (s : State) (l : list CartItem) :
  Forall (line_passes s) l \/
  exists pre it post,
    l = pre ++ it :: post /\ Forall (line_passes s) pre /\
    (expired_at (now s) (products s (item_product it)) = true \/
     (expired_at (now s) (products s (item_product it)) = false /\
      item_quantity it > getQuantity (products s (item_product it)))).
Proof.
  induction l as [|x l IH].
  - left. constructor.
  - destruct (line_passes_dec s x) as [Hp | Hf].
    + destruct IH as [Hall | (pre & it & post & -> & Hpre & Hit)].
      * left. constructor; assumption.
      * right. exists (x :: pre), it, post. repeat split; auto.
    + right. exists [], x, l. repeat split; auto.
Qed.

(** [checkout] either throws and leaves the state as it found it, or
    returns and leaves it settled. *)
Lemma checkout_outcome (s : State) :
  (exists e, checkout s = (Throw e, s)) \/ checkout s = (Normal tt, settled s).
Proof.
  destruct (items (cart s)) as [|x l] eqn:E.
  - left. eexists. apply checkout_empty. exact E.
  - assert (Hne : items (cart s) <> []) by (rewrite E; discriminate).
    destruct (first_failing_line s (items (cart s)))
      as [Hall | (pre & it & post & Hl & Hpre & [He | [He Hq]])].
    + destruct (d_lt (balance (customer s)) (cart_total s)) eqn:Hlt.
      * left. eexists. apply checkout_funds; assumption.
      * right. apply checkout_settles; assumption.
    + left. eexists. apply checkout_validation_throws; [exact Hne|].
      rewrite Hl. apply validate_loop_stops; [exact Hpre|].
      intros acc'. apply validate_expired. exact He.
    + left. eexists. apply checkout_validation_throws; [exact Hne|].
      rewrite Hl. apply validate_loop_stops; [exact Hpre|].
      intros acc'. apply validate_short; assumption.
Qed.

(** ** Stock after settlement *)

Lemma requested_absent (p : ProductPtr) (l : list CartItem) :
  ~ In p (map item_product l) -> requested p l = 0.
Proof.
  unfold requested. induction l as [|it l IH]; intros Hn; simpl; [reflexivity|].
  simpl in Hn. destruct (Nat.eqb (item_product it) p) eqn:E.
  - apply Nat.eqb_eq in E. tauto.
  - apply IH. tauto.
Qed.

Lemma settle_products_untouched (l : list CartItem) :
  forall (h : ProductPtr -> Product) p, ~ In p (map item_product l) -> settle_products l h p = h p.
Proof.
  unfold settle_products.
  induction l as [|it l IH]; intros h p Hn; simpl; [reflexivity|].
  simpl in Hn. rewrite IH by tauto. unfold store.
  destruct (Nat.eqb p (item_product it)) eqn:E; [|reflexivity].
  apply Nat.eqb_eq in E. subst p. tauto.
Qed.

Lemma settle_products_quantity (l : list CartItem) :
  forall (h : ProductPtr -> Product) p, In p (map item_product l) ->
  getQuantity (settle_products l h p) = Int.wrap (getQuantity (h p) - requested p l).
Proof.
  induction l as [|it l IH]; intros h p Hin; [contradiction|].
  change (settle_products (it :: l) h)
    with (settle_products l (store (item_product it)
            (reduceQuantity (item_quantity it) (h (item_product it))) h)).
  set (h1 := store (item_product it)
               (reduceQuantity (item_quantity it) (h (item_product it))) h).
  unfold requested. simpl. fold (requested p l).
  destruct (Nat.eqb (item_product it) p) eqn:E.
  - apply Nat.eqb_eq in E.
    assert (H1 : getQuantity (h1 p) = Int.wrap (getQuantity (h p) - item_quantity it)).
    { unfold h1, store. rewrite <- E, Nat.eqb_refl. reflexivity. }
    simpl. destruct (in_dec Nat.eq_dec p (map item_product l)) as [Hl | Hl].
    + rewrite (IH h1 p Hl), H1, wrap_sub_wrap. f_equal. unfold requested. lia.
    + rewrite (settle_products_untouched l h1 p Hl), H1.
      fold (requested p l). rewrite (requested_absent p l Hl). f_equal. lia.
  - assert (Hl : In p (map item_product l)).
    { simpl in Hin. destruct Hin as [Hp | Hl]; [|exact Hl].
      rewrite Hp, Nat.eqb_refl in E. discriminate. }
    rewrite (IH h1 p Hl). unfold h1, store.
    rewrite Nat.eqb_sym, E. reflexivity.
Qed.

(** ** [Cart::add] *)

Lemma Cart_add_run (s : State) (p : ProductPtr) (q : Z) :
  Cart_add p q s =
  if q >? getQuantity (products s p)
  then (Throw (runtime_error ("Not enough stock for: " ++ getName (products s p))), s)
  else (Normal tt,
        mk_State (products s) (customer s)
                 (mk_Cart (items (cart s) ++ [mk_CartItem p q])) (now s) (cout s)).
Proof.
  unfold Cart_add, bind, deref, gets.
  destruct (q >? getQuantity (products s p)); reflexivity.
Qed.

(** When [checkout] returns, every check had passed and the state is the
    settled one. *)
Lemma checkout_normal_inv (s s' : State) :
  checkout s = (Normal tt, s') ->
  s' = settled s /\
  items (cart s) <> [] /\
  Forall (line_passes s) (items (cart s)) /\
  d_lt (balance (customer s)) (cart_total s) = false.
Proof.
  intros H.
  destruct (items (cart s)) as [|x l] eqn:E.
  - rewrite (checkout_empty s E) in H. discriminate.
  - assert (Hne : items (cart s) <> []) by (rewrite E; discriminate).
    rewrite <- E.
    destruct (first_failing_line s (items (cart s)))
      as [Hall | (pre & it & post & Hl & Hpre & [He | [He Hq]])].
    + destruct (d_lt (balance (customer s)) (cart_total s)) eqn:Hlt.
      * rewrite (checkout_funds s Hne Hall Hlt) in H. discriminate.
      * rewrite (checkout_settles s Hne Hall Hlt) in H. inversion H. auto.
    + rewrite (checkout_validation_throws s
                 (runtime_error (getName (products s (item_product it)) ++ " is expired."))
                 Hne) in H; [discriminate|].
      rewrite Hl. apply validate_loop_stops; [exact Hpre|].
      intros acc'. apply validate_expired. exact He.
    + rewrite (checkout_validation_throws s
                 (runtime_error
                    ("Insufficient stock: " ++ getName (products s (item_product it))))
                 Hne) in H; [discriminate|].
      rewrite Hl. apply validate_loop_stops; [exact Hpre|].
      intros acc'. apply validate_short; assumption.
Qed.

(** ** The claims *)

(** [checkout] ends in one of two ways: it throws, and the state is the one
    it found; or it returns, and the state is the settled one. *)
Theorem checkout_two_outcomes (s : State) :
  (exists e, checkout s = (Throw e, s)) \/ checkout s = (Normal tt, settled s).
Proof. apply checkout_outcome. Qed.

(** C1. No partial settlement.  If [checkout] throws, for whatever reason,
    the state it leaves is the state it found: no product's quantity, not
    the customer's balance, not the cart's lines (and nothing was written).
    If it returns, [reduceQuantity] has run once for every line with the
    line's quantity -- so a product's quantity is its old one less all that
    the lines referring to it request (wrapped to an [int]; as it is when
    that is an [int]), and a product no line refers to is as before --, the
    customer has paid the total, and the cart is empty. *)
Theorem checkout_all_or_nothing (s : State) :
  (forall e s', checkout s = (Throw e, s') -> s' = s) /\
  (forall s', checkout s = (Normal tt, s') ->
     products s' = settle_products (items (cart s)) (products s) /\
     (forall p,
        name (products s' p) = name (products s p) /\
        price (products s' p) = price (products s p) /\
        dynamic_class (products s' p) = dynamic_class (products s p) /\
        (In p (map item_product (items (cart s))) ->
         getQuantity (products s' p)
         = Int.wrap (getQuantity (products s p) - requested p (items (cart s)))) /\
        (In p (map item_product (items (cart s))) ->
         Int.in_range (getQuantity (products s p) - requested p (items (cart s))) ->
         getQuantity (products s' p)
         = getQuantity (products s p) - requested p (items (cart s))) /\
        (~ In p (map item_product (items (cart s))) -> products s' p = products s p)) /\
     balance (customer s') = d_sub (balance (customer s)) (cart_total s) /\
     items (cart s') = []).
Proof.
  split.
  - intros e s' H.
    destruct (checkout_outcome s) as [[e0 H0] | H0]; rewrite H0 in H; congruence.
  - intros s' H. apply checkout_normal_inv in H. destruct H as (-> & _).
    unfold settled. cbn [products customer cart balance items].
    split; [reflexivity|]. split; [|split; reflexivity].
    intros p.
    destruct (settle_products_catalog (items (cart s)) (products s) p) as (Hn & Hp & Hc).
    repeat split; auto.
    + apply settle_products_quantity.
    + intros Hin Hr. rewrite settle_products_quantity by exact Hin.
      apply wrap_in_range. exact Hr.
    + apply settle_products_untouched.
Qed.

Lemma Cart_add_accepts (s : State) (p : ProductPtr) (q : Z) :
  q <= getQuantity (products s p) ->
  Cart_add p q s
  = (Normal tt,
     mk_State (products s) (customer s)
              (mk_Cart (items (cart s) ++ [mk_CartItem p q])) (now s) (cout s)).
Proof.
  intros Hq. rewrite Cart_add_run, Z.gtb_ltb.
  apply Z.ltb_ge in Hq. rewrite Hq. reflexivity.
Qed.

(** C4. [Cart::add] throws "Not enough stock" exactly when the quantity
    asked for exceeds the product's quantity at the time of the call, and
    then leaves the cart (and everything else) as it was; otherwise it
    appends one line and leaves the products untouched. *)
Theorem Cart_add_checks_stock (s : State) (p : ProductPtr) (q : Z) :
  (q > getQuantity (products s p) ->
   Cart_add p q s
   = (Throw (runtime_error ("Not enough stock for: " ++ getName (products s p))), s)) /\
  (q <= getQuantity (products s p) ->
   Cart_add p q s
   = (Normal tt,
      mk_State (products s) (customer s)
               (mk_Cart (items (cart s) ++ [mk_CartItem p q])) (now s) (cout s))) /\
  ((exists e s', Cart_add p q s = (Throw e, s')) <-> q > getQuantity (products s p)).
Proof.
  rewrite Cart_add_run, Z.gtb_ltb.
  destruct (getQuantity (products s p) <? q) eqn:E.
  - apply Z.ltb_lt in E. repeat split; try lia; eauto.
  - apply Z.ltb_ge in E. repeat split; try lia.
    intros (e & s' & H). discriminate.
Qed.

(** C5. The checks run line by line in cart order and the first one that
    fails decides the error.  With every line before [it] passing: if [it]
    is expired, "is expired" is thrown, whether or not its quantity is in
    stock; if it is not expired but asks for more than the stock,
    "Insufficient stock" is thrown.  Neither depends on the lines after
    [it] nor on the customer's balance.  "Customer balance is
    insufficient" is what is thrown when every line passes and the balance is
    below the total. *)
Theorem checkout_reports_first_failure (s : State) :
  (forall pre it post,
     items (cart s) = pre ++ it :: post ->
     Forall (line_passes s) pre ->
     (expired_at (now s) (products s (item_product it)) = true ->
      checkout s
      = (Throw (runtime_error (getName (products s (item_product it)) ++ " is expired.")),
         s)) /\
     (expired_at (now s) (products s (item_product it)) = false ->
      item_quantity it > getQuantity (products s (item_product it)) ->
      checkout s
      = (Throw (runtime_error
                  ("Insufficient stock: " ++ getName (products s (item_product it)))),
         s))) /\
  (items (cart s) <> [] ->
   Forall (line_passes s) (items (cart s)) ->
   d_lt (balance (customer s)) (cart_total s) = true ->
   checkout s = (Throw (runtime_error "Customer balance is insufficient."), s)).
Proof.
  split.
  - intros pre it post Hl Hpre.
    assert (Hne : items (cart s) <> []) by (rewrite Hl; destruct pre; discriminate).
    split.
    + intros He. apply checkout_validation_throws; [exact Hne|].
      rewrite Hl. apply validate_loop_stops; [exact Hpre|].
      intros acc'. apply validate_expired. exact He.
    + intros He Hq. apply checkout_validation_throws; [exact Hne|].
      rewrite Hl. apply validate_loop_stops; [exact Hpre|].
      intros acc'. apply validate_short; assumption.
  - apply checkout_funds.
Qed.

(** C6. On a cart without lines [checkout] throws "Cart is empty.": whatever
    the customer, the products and the clock, and with nothing written and
    nothing changed. *)
Theorem checkout_empty_cart (s : State) :
  items (cart s) = [] ->
  checkout s = (Throw (runtime_error "Cart is empty."), s).
Proof. apply checkout_empty. Qed.

(** C7. After a [checkout] that returned, a [checkout] on the same cart
    throws "Cart is empty.": whoever the customer is then and whatever else
    has changed. *)
Theorem checkout_twice (s s1 s2 : State) :
  checkout s = (Normal tt, s1) ->
  cart s2 = cart s1 ->
  checkout s2 = (Throw (runtime_error "Cart is empty."), s2).
Proof.
  intros H Hc. apply checkout_normal_inv in H. destruct H as (-> & _).
  apply checkout_empty. rewrite Hc. reflexivity.
Qed.

(** C8, as the code has it.  [checkout] sets no format for the receipt.
    When it returns and no line of the cart is shippable (no shipment
    notice is written), what it has written is the receipt alone, with the
    line prices, the subtotal, the shipping cost and the total in the
    format the stream was in when [checkout] was called; only the closing
    balance line is written as [fixed] with precision 2, and that is the
    format the stream is left in. *)
Theorem receipt_keeps_stream_format (s s' : State) :
  checkout s = (Normal tt, s') ->
  shipped_weights (products s) (items (cart s)) = [] ->
  os_written (cout s')
  = os_written (cout s)
    ++ Text ("** Checkout receipt **" ++ nl)
    :: flat_map (receipt_line (os_floatfield (cout s)) (os_precision (cout s)) (products s))
                (items (cart s))
    ++ totals_chunks (os_floatfield (cout s)) (os_precision (cout s))
                     (cart_subtotal s) (cart_shipping s) (cart_total s)
    ++ balance_chunks (balance (customer s')) /\
  os_floatfield (cout s') = fixed /\
  os_precision (cout s') = 2.
Proof.
  intros H Hw. apply checkout_normal_inv in H. destruct H as (-> & _).
  unfold settled, checkout_output, receipt_floatfield, receipt_precision.
  cbn [cout os_written os_floatfield os_precision customer balance].
  assert (Hs : flat_map (shipment_line (products s)) (items (cart s)) = []).
  { apply map_eq_nil with (f := snd). rewrite shipment_lines_weights. exact Hw. }
  rewrite Hs, Hw. auto.
Qed.


Lemma requested_repeat (p : ProductPtr) (q : Z) (n : nat) :
  requested p (repeat (mk_CartItem p q) n) = Z.of_nat n * q.
Proof.
  unfold requested. induction n as [|n IH]; [reflexivity|].
  cbn [repeat filter item_product]. rewrite Nat.eqb_refl.
  cbn [map fold_right item_quantity]. rewrite IH. lia.
Qed.

(** C10. Lines of one product are never added up.  [add] accepts a line
    whenever its own quantity is within the product's stock, whatever the
    cart already holds; [checkout] goes through whenever every line on its
    own is unexpired and within the stock (and the balance covers the
    total).  So a cart of [n + 1] lines, each asking for [q <= stock] of the
    product at [p], is settled, and the stock is left at
    [stock - (n + 1) * q] (wrapped to an [int]). *)
Theorem same_product_lines_not_added_up (s : State) (p : ProductPtr) (q : Z) :
  (q <= getQuantity (products s p) ->
   Cart_add p q s
   = (Normal tt,
      mk_State (products s) (customer s)
               (mk_Cart (items (cart s) ++ [mk_CartItem p q])) (now s) (cout s))) /\
  (items (cart s) <> [] ->
   Forall (line_passes s) (items (cart s)) ->
   d_lt (balance (customer s)) (cart_total s) = false ->
   checkout s = (Normal tt, settled s)) /\
  (forall n : nat,
   items (cart s) = repeat (mk_CartItem p q) (S n) ->
   expired_at (now s) (products s p) = false ->
   q <= getQuantity (products s p) ->
   d_lt (balance (customer s)) (cart_total s) = false ->
   checkout s = (Normal tt, settled s) /\
   getQuantity (products (settled s) p)
   = Int.wrap (getQuantity (products s p) - Z.of_nat (S n) * q)).
Proof.
  split; [|split].
  - intros Hq. apply (Cart_add_accepts s p q Hq).
  - apply checkout_settles.
  - intros n E He Hq Hlt. split.
    + apply checkout_settles; [rewrite E; discriminate| |exact Hlt].
      rewrite E. apply Forall_forall. intros x Hx.
      apply repeat_spec in Hx. subst x. split; assumption.
    + unfold settled. cbn [products]. rewrite settle_products_quantity.
      * rewrite E, requested_repeat. reflexivity.
      * rewrite E. left. reflexivity.
Qed.

(** ** Totals *)


End Shop_facts.

(** ** The claims on the objects of [main] *)

Section Runs.

Import IEEE.

Local Abbreviation State := (@State float).

Local Notation "m ;;; k" := (bind m (fun _ => k))
  (at level 61, right associativity).

(** C1 on two carts of [main]'s customer: one TV is beyond the balance, and
    the state is as before; [main]'s own cart is settled. *)
Lemma checkout_all_or_nothing_witness :
  (checkout Main.dear
   = (Throw (runtime_error "Customer balance is insufficient."), Main.dear)) /\
  checkout Main.carted = (Normal tt, settled Main.carted) /\
  getQuantity (products (settled Main.carted) Main.cheese_ptr)
  = Int.wrap (getQuantity (products Main.carted Main.cheese_ptr)
              - requested Main.cheese_ptr (items (cart Main.carted))) /\
  products (settled Main.carted) Main.tv_ptr = products Main.carted Main.tv_ptr /\
  balance (customer (settled Main.carted))
  = d_sub (balance (customer Main.carted)) (cart_total Main.carted) /\
  items (cart (settled Main.carted)) = [].
Proof.
  assert (H1 : checkout Main.dear
               = (Throw (runtime_error "Customer balance is insufficient."), Main.dear))
    by (vm_compute; reflexivity).
  assert (H2 : checkout Main.carted = (Normal tt, settled Main.carted))
    by (vm_compute; reflexivity).
  split; [exact H1|]. split; [exact H2|].
  destruct (proj2 (checkout_all_or_nothing Main.carted) _ H2) as (_ & Hq & Hb & Hc).
  destruct (Hq Main.cheese_ptr) as (_ & _ & _ & Hin & _ & _).
  destruct (Hq Main.tv_ptr) as (_ & _ & _ & _ & _ & Hout).
  split; [apply Hin; simpl; auto|].
  split; [apply Hout; simpl; intros [H | [H | [H | []]]]; discriminate|].
  split; assumption.
Defined.

(** The run of [main] in IEEE arithmetic: the three calls of [add] and
    [checkout] return; the notice lists the cheese and the biscuits; the
    totals are 300 + 9 = 309 off a balance of 1000; one piece less of each
    product bought is left. *)
Example main_run :
  (Cart_add Main.cheese_ptr 1 ;;; Cart_add Main.biscuits_ptr 1 ;;;
   Cart_add Main.scratchCard_ptr 1 ;;; checkout) Main.start
  = (Normal tt, settled Main.carted) /\
  map fst (flat_map (shipment_line Main.catalog) (items (cart Main.carted)))
  = ["1x Cheese    200g"; "1x Biscuits    700g"]%string /\
  cart_subtotal Main.carted = IEEE.of_int 300 /\
  cart_shipping Main.carted = IEEE.of_int 9 /\
  cart_total Main.carted = IEEE.of_int 309 /\
  balance (customer (settled Main.carted)) = IEEE.of_int 691 /\
  map (fun p => getQuantity (products (settled Main.carted) p)) [0; 1; 2; 3]%nat
  = [9; 4; 3; 99].
Proof. repeat split; vm_compute; reflexivity. Qed.

(** A line with a negative quantity passes every check: it lowers the
    subtotal and raises the stock.  Minus two pieces of cheese bring the
    balance from 1000 to 1204 and the stock from 10 to 12. *)
Example negative_line_pays_the_customer :
  checkout Main.odd = (Normal tt, settled Main.odd) /\
  balance (customer Main.odd) = IEEE.of_int 1000 /\
  balance (customer (settled Main.odd)) = IEEE.of_int 1204 /\
  getQuantity (products Main.odd Main.cheese_ptr) = 10 /\
  getQuantity (products (settled Main.odd) Main.cheese_ptr) = 12.
Proof. repeat split; vm_compute; reflexivity. Qed.

(** C2 fails on the code: [add] admits two lines of three packets of
    biscuits, of which there are five; [checkout] passes each line and
    leaves the stock at -1. *)
Example biscuits_oversold :
  exists s1 s2 s3,
    Cart_add Main.biscuits_ptr 3 Main.start = (Normal tt, s1) /\
    Cart_add Main.biscuits_ptr 3 s1 = (Normal tt, s2) /\
    checkout s2 = (Normal tt, s3) /\
    getQuantity (products Main.start Main.biscuits_ptr) = 5 /\
    getQuantity (products s3 Main.biscuits_ptr) = -1.
Proof.
  exists (Main.with_cart [mk_CartItem Main.biscuits_ptr 3] Main.start).
  exists Main.biscuits_twice, (settled Main.biscuits_twice).
  repeat split; vm_compute; reflexivity.
Qed.

(** C4 on [main]'s objects: four TVs are refused, there being three; one
    piece of cheese is taken. *)
Lemma Cart_add_checks_stock_witness :
  Cart_add Main.tv_ptr 4 Main.start
  = (Throw (runtime_error "Not enough stock for: TV"), Main.start) /\
  Cart_add Main.cheese_ptr 1 Main.start
  = (Normal tt, Main.with_cart [mk_CartItem Main.cheese_ptr 1] Main.start).
Proof.
  split.
  - apply (proj1 (Cart_add_checks_stock Main.start Main.tv_ptr 4)).
    vm_compute. reflexivity.
  - apply (proj1 (proj2 (Cart_add_checks_stock Main.start Main.cheese_ptr 1))).
    vm_compute. discriminate.
Defined.

(** C5 on three carts: expired and short cheese is reported as expired, with
    short TVs behind it; short TVs are reported with cheese behind them; a
    TV beyond the balance is reported as such. *)
Lemma checkout_reports_first_failure_witness :
  checkout Main.stale = (Throw (runtime_error "Cheese is expired."), Main.stale) /\
  checkout Main.short = (Throw (runtime_error "Insufficient stock: TV"), Main.short) /\
  checkout Main.dear
  = (Throw (runtime_error "Customer balance is insufficient."), Main.dear).
Proof.
  assert (Hcard : forall s : State,
            products s = Main.catalog ->
            Forall (line_passes s) [mk_CartItem Main.scratchCard_ptr 1]).
  { intros s Hs. constructor; [|constructor].
    unfold line_passes. rewrite Hs. simpl. split; [reflexivity | lia]. }
  split; [|split].
  - apply (proj1 (proj1 (checkout_reports_first_failure Main.stale)
                    [mk_CartItem Main.scratchCard_ptr 1]
                    (mk_CartItem Main.cheese_ptr 20)
                    [mk_CartItem Main.tv_ptr 100]
                    eq_refl (Hcard Main.stale eq_refl))).
    vm_compute. reflexivity.
  - apply (proj2 (proj1 (checkout_reports_first_failure Main.short)
                    [mk_CartItem Main.scratchCard_ptr 1]
                    (mk_CartItem Main.tv_ptr 4)
                    [mk_CartItem Main.cheese_ptr 1]
                    eq_refl (Hcard Main.short eq_refl))).
    + vm_compute. reflexivity.
    + vm_compute. reflexivity.
  - apply (proj2 (checkout_reports_first_failure Main.dear)).
    + discriminate.
    + constructor; [|constructor]. unfold line_passes. simpl. split; [reflexivity | lia].
    + vm_compute. reflexivity.
Defined.

(** C6 before [main]'s first [cart.add]. *)
Lemma checkout_empty_cart_witness :
  checkout Main.start = (Throw (runtime_error "Cart is empty."), Main.start).
Proof. apply (checkout_empty_cart Main.start). reflexivity. Defined.

(** C7 after [main]'s [checkout]. *)
Lemma checkout_twice_witness :
  checkout (settled Main.carted)
  = (Throw (runtime_error "Cart is empty."), settled Main.carted).
Proof.
  apply (checkout_twice Main.carted (settled Main.carted) (settled Main.carted)).
  - vm_compute. reflexivity.
  - reflexivity.
Defined.

(** C8 fails on the code: in [main]'s run the shipment notice leaves the
    stream at [fixed] with precision 1, and the subtotal, the shipping cost
    and the total are written with one decimal. *)
Lemma receipt_after_notice_one_decimal :
  checkout Main.carted = (Normal tt, settled Main.carted) /\
  totals_formats (os_written (cout (settled Main.carted)))
  = [(fixed, 1); (fixed, 1); (fixed, 1)].
Proof. split; vm_compute; reflexivity. Qed.

(** C8 as the code has it, on two scratch cards and a fresh stream: the
    receipt's numbers are in the general format. *)
Lemma receipt_keeps_stream_format_witness :
  checkout Main.cards = (Normal tt, settled Main.cards) /\
  totals_formats (os_written (cout (settled Main.cards)))
  = [(defaultfloat, 6); (defaultfloat, 6); (defaultfloat, 6)] /\
  os_floatfield (cout (settled Main.cards)) = fixed /\
  os_precision (cout (settled Main.cards)) = 2.
Proof.
  assert (H : checkout Main.cards = (Normal tt, settled Main.cards))
    by (vm_compute; reflexivity).
  split; [exact H|].
  destruct (receipt_keeps_stream_format Main.cards (settled Main.cards) H eq_refl)
    as (Hw & Hf & Hp).
  split; [rewrite Hw; vm_compute; reflexivity|].
  split; assumption.
Defined.



(** C10 on the biscuits: a second line of three is taken with one in the
    cart, and the two are settled out of a stock of five. *)
Lemma same_product_lines_not_added_up_witness :
  Cart_add Main.biscuits_ptr 3
           (Main.with_cart [mk_CartItem Main.biscuits_ptr 3] Main.start)
  = (Normal tt, Main.biscuits_twice) /\
  checkout Main.biscuits_twice = (Normal tt, settled Main.biscuits_twice) /\
  getQuantity (products (settled Main.biscuits_twice) Main.biscuits_ptr)
  = Int.wrap (5 - 2 * 3).
Proof.
  split.
  - apply (proj1 (same_product_lines_not_added_up
                    (Main.with_cart [mk_CartItem Main.biscuits_ptr 3] Main.start)
                    Main.biscuits_ptr 3)).
    vm_compute. discriminate.
  - apply (proj2 (proj2 (same_product_lines_not_added_up
                           Main.biscuits_twice Main.biscuits_ptr 3)) 1%nat).
    + reflexivity.
    + vm_compute. reflexivity.
    + vm_compute. discriminate.
    + vm_compute. reflexivity.
Defined.

End Runs.


From Stdlib Require Import Permutation.

(** ** More of the program *)

Section More_facts.

Context {double : Type} {DO : DoubleOps double}.

Local Abbreviation State := (@State double).
Local Abbreviation Product := (@Product double).
Local Abbreviation M := (@M double).

(** [ShippingService::shipItems] never throws and touches nothing but
    [cout].  For any list, the empty one included, it writes the header, the
    descriptions in order, one per line, and the sum of the weights, added
    up from 0 in the order of the list; the sum is written as [fixed] with
    precision 1 whatever the format was, and that format stays. *)
Theorem shipItems_writes_notice (l : list (string * double)) (s : State) :
  exists s',
    ShippingService_shipItems l s = (Normal tt, s') /\
    products s' = products s /\ customer s' = customer s /\
    cart s' = cart s /\ now s' = now s /\
    os_written (cout s')
    = os_written (cout s)
      ++ Text ("** Shipment notice **" ++ nl)
      :: flat_map (fun it : string * double => [Text (fst it); Text nl]) l
      ++ [Text "Total package weight ";
          Real fixed 1 (fold_left d_add (map snd l) (d_of_int 0));
          Text ("kg" ++ nl ++ nl)] /\
    os_floatfield (cout s') = fixed /\
    os_precision (cout s') = 1.
Proof.
  eexists. split; [apply shipItems_run|].
  cbn [products customer cart now cout os_written os_floatfield os_precision].
  unfold notice_chunks. repeat split; reflexivity.
Qed.

(** What a returning [checkout] has written when no line is shippable. *)
Lemma settled_output_plain (s : State) :
  shipped_weights (products s) (items (cart s)) = [] ->
  checkout_output s
  = Text ("** Checkout receipt **" ++ nl)
    :: flat_map (receipt_line (os_floatfield (cout s)) (os_precision (cout s)) (products s))
                (items (cart s))
    ++ totals_chunks (os_floatfield (cout s)) (os_precision (cout s))
                     (cart_subtotal s) (cart_shipping s) (cart_total s)
    ++ balance_chunks (d_sub (balance (customer s)) (cart_total s)).
Proof.
  intros Hw. unfold checkout_output, receipt_floatfield, receipt_precision.
  assert (Hs : flat_map (shipment_line (products s)) (items (cart s)) = []).
  { apply map_eq_nil with (f := snd). rewrite shipment_lines_weights. exact Hw. }
  rewrite Hs, Hw. reflexivity.
Qed.

(** What a returning [checkout] has written when some line is shippable. *)
Lemma settled_output_shipping (s : State) :
  shipped_weights (products s) (items (cart s)) <> [] ->
  checkout_output s
  = notice_chunks (flat_map (shipment_line (products s)) (items (cart s)))
    ++ Text ("** Checkout receipt **" ++ nl)
    :: flat_map (receipt_line fixed 1 (products s)) (items (cart s))
    ++ totals_chunks fixed 1 (cart_subtotal s) (cart_shipping s) (cart_total s)
    ++ balance_chunks (d_sub (balance (customer s)) (cart_total s)).
Proof.
  intros Hw. unfold checkout_output, receipt_floatfield, receipt_precision.
  rewrite <- (shipment_lines_weights (products s) (items (cart s))) in *.
  destruct (flat_map (shipment_line (products s)) (items (cart s))) as [|x l].
  - contradiction Hw. reflexivity.
  - reflexivity.
Qed.

(** When [checkout] returns and some line is shippable, it has written the
    shipment notice -- one line per shippable line, in cart order -- and
    then the receipt, whose line prices, subtotal, shipping cost and total
    are all in the format the notice left: [fixed] with precision 1,
    whatever format the stream was in before.  The balance line follows, in
    [fixed] with precision 2. *)
Theorem checkout_notice_then_receipt (s s' : State) :
  checkout s = (Normal tt, s') ->
  shipped_weights (products s) (items (cart s)) <> [] ->
  os_written (cout s')
  = os_written (cout s)
    ++ notice_chunks (flat_map (shipment_line (products s)) (items (cart s)))
    ++ Text ("** Checkout receipt **" ++ nl)
    :: flat_map (receipt_line fixed 1 (products s)) (items (cart s))
    ++ totals_chunks fixed 1 (cart_subtotal s) (cart_shipping s) (cart_total s)
    ++ balance_chunks (balance (customer s')) /\
  map snd (flat_map (shipment_line (products s)) (items (cart s)))
  = shipped_weights (products s) (items (cart s)).
Proof.
  intros H Hw. apply checkout_normal_inv in H. destruct H as (-> & _).
  unfold settled. cbn [cout os_written customer balance].
  rewrite (settled_output_shipping s Hw). split; [reflexivity|].
  apply shipment_lines_weights.
Qed.

(** [showBalance] leaves [cout] at [fixed] with precision 2, and that
    sticks: a [checkout] that returns on the stream an earlier returning
    [checkout] has left, with no shippable line in its cart, writes its line
    prices, subtotal, shipping cost and total with two decimals. *)
Theorem second_receipt_two_decimals (s s1 s2 s3 : State) :
  checkout s = (Normal tt, s1) ->
  cout s2 = cout s1 ->
  shipped_weights (products s2) (items (cart s2)) = [] ->
  checkout s2 = (Normal tt, s3) ->
  os_written (cout s3)
  = os_written (cout s1)
    ++ Text ("** Checkout receipt **" ++ nl)
    :: flat_map (receipt_line fixed 2 (products s2)) (items (cart s2))
    ++ totals_chunks fixed 2 (cart_subtotal s2) (cart_shipping s2) (cart_total s2)
    ++ balance_chunks (balance (customer s3)).
Proof.
  intros H1 Hc Hw H2.
  apply checkout_normal_inv in H1. destruct H1 as (-> & _).
  apply checkout_normal_inv in H2. destruct H2 as (-> & _).
  unfold settled at 1. cbn [cout os_written customer balance].
  rewrite (settled_output_plain s2 Hw), Hc.
  unfold settled. cbn [cout os_written os_floatfield os_precision]. reflexivity.
Qed.

(** *** Stock *)

(** With one line per product, what the lines request of a product is what
    its line asks for. *)
Lemma requested_single (l : list CartItem) :
  NoDup (map item_product l) ->
  forall it, In it l -> requested (item_product it) l = item_quantity it.
Proof.
  unfold requested.
  induction l as [|x l IH]; intros Hnd it Hin; [contradiction|].
  simpl in Hnd. inversion Hnd as [|? ? Hx Hl]; subst.
  cbn [filter]. destruct Hin as [-> | Hin].
  - rewrite Nat.eqb_refl. cbn [map fold_right].
    fold (requested (item_product it) l).
    rewrite (requested_absent _ _ Hx). lia.
  - destruct (Nat.eqb (item_product x) (item_product it)) eqn:E.
    + apply Nat.eqb_eq in E. exfalso. apply Hx. rewrite E.
      apply in_map. exact Hin.
    + apply IH; assumption.
Qed.

(** With one line per product and no overflow, a returning [checkout]
    leaves of each product bought its stock less the line's quantity. *)
Lemma settled_single_line (s : State) (it : CartItem) :
  NoDup (map item_product (items (cart s))) ->
  In it (items (cart s)) ->
  Int.in_range (getQuantity (products s (item_product it)) - item_quantity it) ->
  getQuantity (products (settled s) (item_product it))
  = getQuantity (products s (item_product it)) - item_quantity it.
Proof.
  intros Hnd Hin Hr. unfold settled. cbn [products].
  rewrite settle_products_quantity by (apply in_map; exact Hin).
  rewrite (requested_single _ Hnd it Hin). apply wrap_in_range. exact Hr.
Qed.

(** The invariant the stock checks do keep.  When every product has at
    most one line in the cart, no line asks for a negative quantity, and
    every stock is a non-negative [int], a returning [checkout] leaves every
    stock non-negative and no larger than it was. *)
Theorem checkout_keeps_stock_nonnegative (s s' : State) :
  checkout s = (Normal tt, s') ->
  NoDup (map item_product (items (cart s))) ->
  Forall (fun it => 0 <= item_quantity it) (items (cart s)) ->
  (forall p, 0 <= getQuantity (products s p) <= Int.MAX) ->
  forall p, 0 <= getQuantity (products s' p) <= getQuantity (products s p).
Proof.
  intros H Hnd Hpos Hst p.
  apply checkout_normal_inv in H. destruct H as (-> & _ & Hall & _).
  destruct (in_dec Nat.eq_dec p (map item_product (items (cart s)))) as [Hin | Hout].
  - apply in_map_iff in Hin. destruct Hin as (it & <- & Hin).
    pose proof (proj1 (Forall_forall _ _) Hall it Hin) as [_ Hq].
    pose proof (proj1 (Forall_forall _ _) Hpos it Hin) as H0.
    pose proof (Hst (item_product it)) as Hp.
    cbv beta in H0. unfold Int.MAX in Hp.
    rewrite (settled_single_line s it Hnd Hin).
    + lia.
    + unfold Int.in_range, Int.MIN, Int.MAX. lia.
  - unfold settled. cbn [products].
    rewrite (settle_products_untouched _ _ _ Hout). pose proof (Hst p). lia.
Qed.

Lemma requested_app (p : ProductPtr) (l1 l2 : list CartItem) :
  requested p (l1 ++ l2) = requested p l1 + requested p l2.
Proof.
  unfold requested. induction l1 as [|x l1 IH]; [reflexivity|].
  cbn [app filter]. destruct (Nat.eqb (item_product x) p); cbn [map fold_right]; lia.
Qed.

(** What the only line of a product asks for is what is requested of it. *)
Lemma requested_alone (p : ProductPtr) (q : Z) (pre post : list CartItem) :
  ~ In p (map item_product (pre ++ post)) ->
  requested p (pre ++ mk_CartItem p q :: post) = q.
Proof.
  intros Hout. rewrite map_app, in_app_iff in Hout.
  rewrite requested_app.
  change (mk_CartItem p q :: post) with ([mk_CartItem p q] ++ post).
  rewrite requested_app.
  rewrite (requested_absent p pre), (requested_absent p post) by tauto.
  unfold requested. cbn [filter item_product]. rewrite Nat.eqb_refl.
  cbn [map fold_right item_quantity]. lia.
Qed.

(** No check has a lower bound on a line's quantity.  [add] takes any
    negative quantity of a product whose stock is not negative, and when
    [checkout] returns on a cart with such a line -- its product on no other
    line, whatever the other lines are, and no overflow -- the product's
    stock has grown by that much. *)
Theorem negative_line_raises_stock (s : State) (p : ProductPtr) (q : Z) :
  q < 0 ->
  0 <= getQuantity (products s p) ->
  Cart_add p q s
  = (Normal tt,
     mk_State (products s) (customer s)
              (mk_Cart (items (cart s) ++ [mk_CartItem p q])) (now s) (cout s)) /\
  (forall s' pre post,
     checkout s = (Normal tt, s') ->
     items (cart s) = pre ++ mk_CartItem p q :: post ->
     ~ In p (map item_product (pre ++ post)) ->
     Int.in_range (getQuantity (products s p) - q) ->
     getQuantity (products s' p) = getQuantity (products s p) - q /\
     getQuantity (products s p) < getQuantity (products s' p)).
Proof.
  intros Hq Hst. split.
  - apply Cart_add_accepts. lia.
  - intros s' pre post H Hl Hout Hr.
    apply checkout_normal_inv in H. destruct H as (-> & _).
    assert (E : getQuantity (products (settled s) p) = getQuantity (products s p) - q).
    { unfold settled. cbn [products].
      rewrite settle_products_quantity.
      - rewrite Hl, (requested_alone p q pre post Hout). apply wrap_in_range. exact Hr.
      - rewrite Hl, map_app. apply in_or_app. right. left. reflexivity. }
    rewrite E. lia.
Qed.

(** *** Classes *)

(** [isExpired] is monotone in the clock: a product expired at one reading
    is expired at every later one, and one not expired is not expired at
    any earlier one.  Products of the classes [Product] and
    [ShippableProduct] are never expired. *)
Theorem isExpired_monotone (p : Product) (s1 s2 : State) :
  now s1 <= now s2 ->
  (isExpired p s1 = (Normal true, s1) -> isExpired p s2 = (Normal true, s2)) /\
  (isExpired p s2 = (Normal false, s2) -> isExpired p s1 = (Normal false, s1)) /\
  (dynamic_class p = BaseProduct \/ (exists w, dynamic_class p = ShippableProduct w) ->
   isExpired p s1 = (Normal false, s1)).
Proof.
  intros Ht. rewrite !isExpired_run. unfold expired_at.
  destruct (dynamic_class p) as [|e|w|e w].
  - repeat split; auto; discriminate.
  - repeat split.
    + intros H. assert (H1 : (e <? now s1) = true) by congruence.
      apply Z.ltb_lt in H1.
      assert (H2 : (e <? now s2) = true) by (apply Z.ltb_lt; lia).
      rewrite H2. reflexivity.
    + intros H. assert (H1 : (e <? now s2) = false) by congruence.
      apply Z.ltb_ge in H1.
      assert (H2 : (e <? now s1) = false) by (apply Z.ltb_ge; lia).
      rewrite H2. reflexivity.
    + intros [H | [w H]]; discriminate.
  - repeat split; auto; discriminate.
  - repeat split.
    + intros H. assert (H1 : (e <? now s1) = true) by congruence.
      apply Z.ltb_lt in H1.
      assert (H2 : (e <? now s2) = true) by (apply Z.ltb_lt; lia).
      rewrite H2. reflexivity.
    + intros H. assert (H1 : (e <? now s2) = false) by congruence.
      apply Z.ltb_ge in H1.
      assert (H2 : (e <? now s1) = false) by (apply Z.ltb_ge; lia).
      rewrite H2. reflexivity.
    + intros [H | [w0 H]]; discriminate.
Qed.

(** [isShippable] answers true exactly for the objects
    [dynamic_cast<Shippable*>] finds a [Shippable] in, so the second test of
    [checkout] (line 148) never fails after the first (line 147); and the
    name the [Shippable] gives is the name [Product::getName] gives, so the
    shipment notice and the receipt name a product alike. *)
Theorem isShippable_agrees_with_cast (p : Product) :
  (isShippable p = true ->
   exists sh, dynamic_cast_Shippable p = Some sh /\ Shippable_getName sh = getName p) /\
  (isShippable p = false -> dynamic_cast_Shippable p = None).
Proof.
  unfold isShippable, dynamic_cast_Shippable, getName.
  destruct (dynamic_class p); split; intros H; try discriminate; eauto.
Qed.

(** *** Calls of [add] in a row *)

Lemma Cart_add_all_accepts (ops : list (ProductPtr * Z)) :
  forall s : State,
  Forall (fun op => snd op <= getQuantity (products s (fst op))) ops ->
  Cart_add_all ops s
  = (Normal tt,
     mk_State (products s) (customer s)
              (mk_Cart (items (cart s)
                          ++ map (fun op => mk_CartItem (fst op) (snd op)) ops))
              (now s) (cout s)).
Proof.
  unfold Cart_add_all.
  induction ops as [|op ops IH]; intros s Hall.
  - destruct s as [h c [l] t o]. simpl. rewrite app_nil_r. reflexivity.
  - inversion Hall as [|? ? Hop Hops]; subst.
    cbn [for_each]. unfold bind at 1. rewrite (Cart_add_accepts s _ _ Hop).
    rewrite IH by exact Hops.
    cbn [products customer cart now cout items map]. rewrite <- app_assoc. reflexivity.
Qed.

Lemma Cart_add_all_stops (pre : list (ProductPtr * Z)) :
  forall (s : State) op post,
  Forall (fun op => snd op <= getQuantity (products s (fst op))) pre ->
  snd op > getQuantity (products s (fst op)) ->
  Cart_add_all (pre ++ op :: post) s
  = (Throw (runtime_error ("Not enough stock for: " ++ getName (products s (fst op)))),
     mk_State (products s) (customer s)
              (mk_Cart (items (cart s)
                          ++ map (fun op => mk_CartItem (fst op) (snd op)) pre))
              (now s) (cout s)).
Proof.
  unfold Cart_add_all.
  induction pre as [|x pre IH]; intros s op post Hpre Hop.
  - cbn [app for_each]. unfold bind at 1.
    rewrite Cart_add_run.
    assert ((snd op >? getQuantity (products s (fst op))) = true) as ->
      by (rewrite Z.gtb_ltb; apply Z.ltb_lt; lia).
    destruct s as [h c [l] t o]. simpl. rewrite app_nil_r. reflexivity.
  - inversion Hpre as [|? ? Hx Hl]; subst.
    cbn [app for_each]. unfold bind at 1.
    rewrite (Cart_add_accepts s _ _ Hx).
    rewrite (IH _ op post) by assumption.
    cbn [products customer cart now cout items map]. rewrite <- app_assoc. reflexivity.
Qed.

(** Calls of [add] in a row.  While each quantity is within its product's
    stock, the lines are appended in the order of the calls, after the lines
    the cart had, and nothing else changes.  The first call that asks for
    more than the stock throws "Not enough stock for", the calls after it
    are not made, and the lines appended before it stay in the cart. *)
Theorem Cart_add_all_in_order (s : State) :
  (forall ops,
     Forall (fun op => snd op <= getQuantity (products s (fst op))) ops ->
     Cart_add_all ops s
     = (Normal tt,
        mk_State (products s) (customer s)
                 (mk_Cart (items (cart s)
                             ++ map (fun op => mk_CartItem (fst op) (snd op)) ops))
                 (now s) (cout s))) /\
  (forall pre op post,
     Forall (fun op => snd op <= getQuantity (products s (fst op))) pre ->
     snd op > getQuantity (products s (fst op)) ->
     Cart_add_all (pre ++ op :: post) s
     = (Throw (runtime_error ("Not enough stock for: " ++ getName (products s (fst op)))),
        mk_State (products s) (customer s)
                 (mk_Cart (items (cart s)
                             ++ map (fun op => mk_CartItem (fst op) (snd op)) pre))
                 (now s) (cout s))).
Proof.
  split.
  - intros ops Hops. apply Cart_add_all_accepts. exact Hops.
  - intros pre op post Hpre Hop. apply Cart_add_all_stops; assumption.
Qed.



(** *** The [try] block of [main] *)

(** The shape of [main]: calls of [add] in a row and then [checkout], in a
    [try] block.  When one of the calls of [add] asks for more than the
    stock, [checkout] is not called: the program writes "Checkout failed:
    Not enough stock for: <name>" to [cerr] and returns 0, with nothing
    written to [cout], no stock and no balance changed -- and the lines
    appended before the failing call still in the cart. *)
Theorem failed_add_skips_checkout (s : State) (pre post : list (ProductPtr * Z))
    (op : ProductPtr * Z) :
  Forall (fun op => snd op <= getQuantity (products s (fst op))) pre ->
  snd op > getQuantity (products s (fst op)) ->
  try_and_return (bind (Cart_add_all (pre ++ op :: post)) (fun _ => checkout)) s
  = mk_Exit 0
      (mk_State (products s) (customer s)
                (mk_Cart (items (cart s)
                            ++ map (fun op => mk_CartItem (fst op) (snd op)) pre))
                (now s) (cout s))
      ["Checkout failed: "%string;
       ("Not enough stock for: " ++ getName (products s (fst op)))%string; nl].
Proof.
  intros Hpre Hop. unfold try_and_return, bind.
  rewrite (Cart_add_all_stops pre s op post Hpre Hop). reflexivity.
Qed.

(** *** The order of the lines *)

Lemma requested_perm (p : ProductPtr) (l1 l2 : list CartItem) :
  Permutation l1 l2 -> requested p l1 = requested p l2.
Proof.
  unfold requested.
  induction 1 as [|x l1 l2 _ IH | x y l | l1 l2 l3 _ IH1 _ IH2].
  - reflexivity.
  - cbn [filter]. destruct (Nat.eqb (item_product x) p); cbn [map fold_right]; lia.
  - cbn [filter].
    destruct (Nat.eqb (item_product x) p), (Nat.eqb (item_product y) p);
      cbn [map fold_right]; lia.
  - lia.
Qed.

Lemma Product_ext (a b : Product) :
  name a = name b -> price a = price b -> quantity a = quantity b ->
  dynamic_class a = dynamic_class b -> a = b.
Proof. destruct a, b. cbn. intros; subst. reflexivity. Qed.

Lemma settle_products_perm (l1 l2 : list CartItem) (h : ProductPtr -> Product) :
  Permutation l1 l2 ->
  forall p, settle_products l1 h p = settle_products l2 h p.
Proof.
  intros Hp p.
  destruct (settle_products_catalog l1 h p) as (Hn1 & Hp1 & Hc1).
  destruct (settle_products_catalog l2 h p) as (Hn2 & Hp2 & Hc2).
  apply Product_ext; try congruence.
  change (getQuantity (settle_products l1 h p) = getQuantity (settle_products l2 h p)).
  destruct (in_dec Nat.eq_dec p (map item_product l1)) as [Hin | Hout].
  - rewrite !settle_products_quantity.
    + rewrite (requested_perm p l1 l2 Hp). reflexivity.
    + apply (Permutation_in p (Permutation_map item_product Hp)). exact Hin.
    + exact Hin.
  - rewrite !settle_products_untouched; [reflexivity | | exact Hout].
    intros Hin. apply Hout.
    apply (Permutation_in p (Permutation_map item_product (Permutation_sym Hp))).
    exact Hin.
Qed.

(** The stock a returning [checkout] leaves does not depend on the order
    of the lines: two carts with the same lines in different orders, over
    the same products, leave every product the same. *)
Theorem stock_independent_of_line_order (s1 s2 s1' s2' : State) :
  products s1 = products s2 ->
  Permutation (items (cart s1)) (items (cart s2)) ->
  checkout s1 = (Normal tt, s1') ->
  checkout s2 = (Normal tt, s2') ->
  forall p, products s1' p = products s2' p.
Proof.
  intros Hh Hp H1 H2 p.
  apply checkout_normal_inv in H1. destruct H1 as (-> & _).
  apply checkout_normal_inv in H2. destruct H2 as (-> & _).
  unfold settled. cbn [products]. rewrite Hh.
  apply settle_products_perm. exact Hp.
Qed.

End More_facts.

(** ** [main] *)

Section Program_facts.

Import IEEE.

Local Abbreviation State := (@State float).

(** [main] ends well whenever it is started.  Whatever the clock reads and
    whatever state [cout] is in, the three calls of [add] and [checkout]
    return: nothing is written to [cerr], [main] returns 0, the cart is
    empty, the balance is 691, the stocks are 9, 4, 3 and 99, and the
    receipt closes with 300, 9 and 309, written with one decimal, before the
    balance line.  (The products expire a day after the start, and the one
    clock reading of the run is not later than that.) *)
Theorem main_ends_well (t : time_t) (os : ostream) :
  exit_code (Program.main t os) = 0 /\
  cerr (Program.main t os) = [] /\
  items (cart (final (Program.main t os))) = [] /\
  balance (customer (final (Program.main t os))) = of_int 691 /\
  map (fun p => getQuantity (products (final (Program.main t os)) p)) [0; 1; 2; 3]%nat
  = [9; 4; 3; 99] /\
  exists written,
    os_written (cout (final (Program.main t os)))
    = os_written os ++ written
      ++ totals_chunks fixed 1 (of_int 300) (of_int 9) (of_int 309)
      ++ balance_chunks (of_int 691).
Proof.
  set (sc := mk_State (Program.objects t) (mk_Customer "Ibrahim" (of_int 1000))
               (mk_Cart [mk_CartItem 0%nat 1; mk_CartItem 1%nat 1; mk_CartItem 3%nat 1])
               t os).
  assert (Hpass : Forall (line_passes sc) (items (cart sc))).
  { repeat constructor; cbn; try lia; apply Z.ltb_ge; lia. }
  assert (Hlt : d_lt (balance (customer sc)) (cart_total sc) = false)
    by (vm_compute; reflexivity).
  assert (Hrun : Program.main t os = mk_Exit 0 (settled sc) []).
  { unfold Program.main, try_and_return.
    unfold bind at 1. rewrite Cart_add_accepts by (cbn; lia).
    unfold bind at 1. rewrite Cart_add_accepts by (cbn; lia).
    unfold bind at 1. rewrite Cart_add_accepts by (cbn; lia).
    cbn [products customer cart now cout items app]. fold sc.
    rewrite (checkout_settles sc); [reflexivity | discriminate | exact Hpass | exact Hlt]. }
  rewrite Hrun. cbn [exit_code cerr final].
  split; [reflexivity|]. split; [reflexivity|]. split; [reflexivity|].
  split; [vm_compute; reflexivity|]. split; [vm_compute; reflexivity|].
  unfold settled. cbn [cout os_written].
  rewrite settled_output_shipping by (vm_compute; discriminate).
  assert (E1 : cart_subtotal sc = of_int 300) by (vm_compute; reflexivity).
  assert (E2 : cart_shipping sc = of_int 9) by (vm_compute; reflexivity).
  assert (E3 : cart_total sc = of_int 309) by (vm_compute; reflexivity).
  assert (E4 : d_sub (balance (customer sc)) (of_int 309) = of_int 691)
    by (vm_compute; reflexivity).
  rewrite E1, E2, E3, E4.
  exists (notice_chunks (flat_map (shipment_line (products sc)) (items (cart sc)))
          ++ Text ("** Checkout receipt **" ++ nl)
          :: flat_map (receipt_line fixed 1 (products sc)) (items (cart sc))).
  rewrite <- !app_assoc. rewrite <- app_comm_cons. reflexivity.
Qed.

End Program_facts.

(** ** More on the objects of [main] *)

Section More_runs.

Import IEEE.

Local Abbreviation State := (@State float).

(** [main]'s cart has shippable lines: the notice precedes the receipt. *)
Lemma checkout_notice_then_receipt_witness :
  os_written (cout (settled Main.carted))
  = os_written (cout Main.carted)
    ++ notice_chunks (flat_map (shipment_line (products Main.carted))
                               (items (cart Main.carted)))
    ++ Text ("** Checkout receipt **" ++ nl)
    :: flat_map (receipt_line fixed 1 (products Main.carted)) (items (cart Main.carted))
    ++ totals_chunks fixed 1 (cart_subtotal Main.carted) (cart_shipping Main.carted)
                     (cart_total Main.carted)
    ++ balance_chunks (balance (customer (settled Main.carted))).
Proof.
  apply (checkout_notice_then_receipt Main.carted (settled Main.carted)).
  - vm_compute. reflexivity.
  - vm_compute. discriminate.
Defined.

(** Two scratch cards bought after [main]'s [checkout], on the same stream. *)
Lemma second_receipt_two_decimals_witness :
  totals_formats
    (os_written (cout (settled (Main.with_cart [mk_CartItem Main.scratchCard_ptr 2]
                                               (settled Main.carted)))))
  = [(fixed, 1); (fixed, 1); (fixed, 1); (fixed, 2); (fixed, 2); (fixed, 2)].
Proof.
  rewrite (second_receipt_two_decimals Main.carted (settled Main.carted)
             (Main.with_cart [mk_CartItem Main.scratchCard_ptr 2] (settled Main.carted))
             (settled (Main.with_cart [mk_CartItem Main.scratchCard_ptr 2]
                                      (settled Main.carted)))).
  - vm_compute. reflexivity.
  - vm_compute. reflexivity.
  - reflexivity.
  - reflexivity.
  - vm_compute. reflexivity.
Defined.

(** [main]'s cart: one line per product, no negative quantity. *)
Lemma checkout_keeps_stock_nonnegative_witness :
  Forall (fun p => 0 <= getQuantity (products (settled Main.carted) p)
                     <= getQuantity (products Main.carted p))
         [Main.cheese_ptr; Main.biscuits_ptr; Main.tv_ptr; Main.scratchCard_ptr].
Proof.
  apply Forall_forall. intros p _. revert p.
  apply (checkout_keeps_stock_nonnegative Main.carted (settled Main.carted)).
  - vm_compute. reflexivity.
  - repeat constructor; simpl; intuition discriminate.
  - repeat constructor; simpl; lia.
  - intros [|[|[|[|p]]]]; vm_compute; split; discriminate.
Defined.

(** Minus two pieces of cheese, beside two lines of biscuits: ten become
    twelve. *)
Lemma negative_line_raises_stock_witness :
  Cart_add Main.cheese_ptr (-2) Main.start
  = (Normal tt, Main.with_cart [mk_CartItem Main.cheese_ptr (-2)] Main.start) /\
  getQuantity (products (settled Main.cheese_back) Main.cheese_ptr) = 10 - -2.
Proof.
  split.
  - apply (proj1 (negative_line_raises_stock Main.start Main.cheese_ptr (-2)
                    ltac:(lia) ltac:(vm_compute; discriminate))).
  - apply (proj2 (negative_line_raises_stock Main.cheese_back Main.cheese_ptr (-2)
                    ltac:(lia) ltac:(vm_compute; discriminate))
             (settled Main.cheese_back) []
             [mk_CartItem Main.biscuits_ptr 1; mk_CartItem Main.biscuits_ptr 1]).
    + vm_compute. reflexivity.
    + reflexivity.
    + simpl. intros [H | [H | []]]; discriminate.
    + vm_compute. split; discriminate.
Defined.

(** The cheese, expired two days after the start, is expired three days
    after it; not expired at the start, it was not expired before. *)
Lemma isExpired_monotone_witness :
  isExpired Main.cheese (Main.start_at (Main.t0 + 3 * 86400))
  = (Normal true, Main.start_at (Main.t0 + 3 * 86400)) /\
  isExpired Main.cheese (Main.start_at 0) = (Normal false, Main.start_at 0) /\
  isExpired Main.tv Main.stale = (Normal false, Main.stale).
Proof.
  split; [|split].
  - apply (proj1 (isExpired_monotone Main.cheese Main.stale
                    (Main.start_at (Main.t0 + 3 * 86400))
                    ltac:(vm_compute; discriminate))).
    vm_compute. reflexivity.
  - apply (proj1 (proj2 (isExpired_monotone Main.cheese (Main.start_at 0) Main.start
                           ltac:(vm_compute; discriminate)))).
    vm_compute. reflexivity.
  - apply (proj2 (proj2 (isExpired_monotone Main.tv Main.stale Main.stale
                           ltac:(vm_compute; discriminate)))).
    right. eexists. reflexivity.
Defined.

(** The TV is shippable, the scratch card is not. *)
Lemma isShippable_agrees_with_cast_witness :
  (exists sh, dynamic_cast_Shippable Main.tv = Some sh
              /\ Shippable_getName sh = getName Main.tv) /\
  dynamic_cast_Shippable Main.scratchCard = None.
Proof.
  split.
  - apply (proj1 (isShippable_agrees_with_cast Main.tv)). reflexivity.
  - apply (proj2 (isShippable_agrees_with_cast Main.scratchCard)). reflexivity.
Defined.

(** [main]'s three calls; and cheese, four TVs, a scratch card. *)
Lemma Cart_add_all_in_order_witness :
  Cart_add_all [(Main.cheese_ptr, 1); (Main.biscuits_ptr, 1); (Main.scratchCard_ptr, 1)]
               Main.start
  = (Normal tt, Main.carted) /\
  Cart_add_all [(Main.cheese_ptr, 1); (Main.tv_ptr, 4); (Main.scratchCard_ptr, 1)]
               Main.start
  = (Throw (runtime_error "Not enough stock for: TV"),
     Main.with_cart [mk_CartItem Main.cheese_ptr 1] Main.start).
Proof.
  split.
  - apply (proj1 (Cart_add_all_in_order Main.start)
             [(Main.cheese_ptr, 1); (Main.biscuits_ptr, 1); (Main.scratchCard_ptr, 1)]).
    repeat constructor; simpl; lia.
  - apply (proj2 (Cart_add_all_in_order Main.start)
             [(Main.cheese_ptr, 1)] (Main.tv_ptr, 4) [(Main.scratchCard_ptr, 1)]).
    + repeat constructor; simpl; lia.
    + simpl. lia.
Defined.


(** Cheese, four TVs, a scratch card: the cheese stays in the cart. *)
Lemma failed_add_skips_checkout_witness :
  try_and_return
    (bind (Cart_add_all [(Main.cheese_ptr, 1); (Main.tv_ptr, 4); (Main.scratchCard_ptr, 1)])
          (fun _ => checkout))
    Main.start
  = mk_Exit 0 (Main.with_cart [mk_CartItem Main.cheese_ptr 1] Main.start)
            ["Checkout failed: "%string; "Not enough stock for: TV"%string; nl].
Proof.
  apply (failed_add_skips_checkout Main.start
           [(Main.cheese_ptr, 1)] [(Main.scratchCard_ptr, 1)] (Main.tv_ptr, 4)).
  - repeat constructor; simpl; lia.
  - simpl. lia.
Defined.

(** [main]'s cart, and the scratch card first. *)
Lemma stock_independent_of_line_order_witness :
  Forall (fun p =>
            products (settled Main.carted) p
            = products (settled (Main.with_cart
                                   [mk_CartItem Main.scratchCard_ptr 1;
                                    mk_CartItem Main.cheese_ptr 1;
                                    mk_CartItem Main.biscuits_ptr 1] Main.start)) p)
         [Main.cheese_ptr; Main.biscuits_ptr; Main.tv_ptr; Main.scratchCard_ptr].
Proof.
  apply Forall_forall. intros p _. revert p.
  apply (stock_independent_of_line_order Main.carted
           (Main.with_cart [mk_CartItem Main.scratchCard_ptr 1;
                            mk_CartItem Main.cheese_ptr 1;
                            mk_CartItem Main.biscuits_ptr 1] Main.start)).
  - reflexivity.
  - simpl. apply Permutation_sym.
    apply (Permutation_cons_app [mk_CartItem Main.cheese_ptr 1;
                                 mk_CartItem Main.biscuits_ptr 1] []).
    rewrite app_nil_r. apply Permutation_refl.
  - vm_compute. reflexivity.
  - vm_compute. reflexivity.
Defined.

End More_runs.


(** ** The totals of some carts *)

Section Totals_runs.

Import IEEE.

Local Abbreviation State := (@State float).



End Totals_runs.
